(** * The faucet server (src/server.ts): admission and dispatch

    A shallow embedding of the request handlers and of the start-up
    configuration merge of [src/server.ts], with the properties the
    specification states about them.

    Conventions.
    - A JavaScript value read from a loosely typed object ([any]) is a
      [JsValue]; a field whose TypeScript annotation is [string | undefined]
      is an [option string], [None] being [undefined].
    - A JavaScript object used as a record of configuration keys is a
      [gmap string JsValue]; a [Map<string, _>] is a [gmap string _].
    - The collaborators that live outside [server.ts] (the EVM instance, the
      pipeline checks, the coupon service) are parameters: an EVM instance is
      a record of its methods, the pipeline checks are section variables.
    - A handler is a function from the request to the list of the effects it
      performs, in order: collaborator calls and the response. *)

From Stdlib Require Import QArith.
From stdpp Require Import gmap strings list fin_maps pretty.

Local Open Scope string_scope.

(** ** JavaScript values *)

Module Js.

(** The values a JSON configuration or request body can hold. An object or
    array nested in another object is held by reference ([JRef]). Numbers are
    the finite numbers a JSON document denotes. *)
Inductive JsValue :=
| JUndefined
| JNull
| JBool (b : bool)
| JNum (q : Q)
| JStr (s : string)
| JRef (r : N).

(** ToBoolean: [undefined], [null], [false], [0] and the empty string are
    falsy, everything else is truthy. *)
Definition truthy (v : JsValue) : bool :=
  match v with
  | JUndefined | JNull => false
  | JBool b => b
  | JNum q => negb (Qeq_bool q 0)
  | JStr s => negb (String.eqb s "")
  | JRef _ => true
  end.

(** [typeof v == "string"] *)
Definition isString (v : JsValue) : bool :=
  match v with JStr _ => true | _ => false end.

(** The property read [o[key]]: [undefined] for a key the object lacks. *)
Definition get (o : gmap string JsValue) (key : string) : JsValue :=
  default JUndefined (o !! key).

(** Truthiness of a [string | undefined] variable, as in [if (coupon)] and
    [erc20 && ...]: defined and not the empty string. *)
Definition truthyStr (s : option string) : bool :=
  match s with
  | Some s => negb (String.eqb s "")
  | None => false
  end.

(** Truthiness of a [number | undefined] variable: defined and not zero. *)
Definition truthyNum (n : option Q) : bool :=
  match n with
  | Some q => negb (Qeq_bool q 0)
  | None => false
  end.

(** [n <= 0] for a [number | undefined] variable; [undefined] converts to
    [NaN], for which every comparison is false. *)
Definition leZero (n : option Q) : bool :=
  match n with
  | Some q => Qle_bool q 0
  | None => false
  end.

(** [String.prototype.toUpperCase] on the ASCII letters; an address is a
    hexadecimal string, other characters are kept as they are. *)
Definition upperAscii (c : Ascii.ascii) : Ascii.ascii :=
  let n := Ascii.nat_of_ascii c in
  if (97 <=? n)%nat && (n <=? 122)%nat then Ascii.ascii_of_nat (n - 32) else c.

Fixpoint toUpperCase (s : string) : string :=
  match s with
  | EmptyString => EmptyString
  | String c rest => String (upperAscii c) (toUpperCase rest)
  end.

(** String concatenation [a + b] where [a] may be [undefined]. *)
Definition concatUndef (a : option string) (b : string) : string :=
  default "undefined" a +:+ b.

End Js.
Import Js.

(** ** Registry: start-up merge of token configurations *)

Module Registry.

(** [const separateConfigFields = ['COUPON_REQUIRED', 'MAINNET_BALANCE_CHECK_ENABLED']] *)
Definition separateConfigFields : list string :=
  ["COUPON_REQUIRED"; "MAINNET_BALANCE_CHECK_ENABLED"].

(** One iteration of the [forEach] of [populateConfig]: the parent's [key],
    holding [pv], is copied unless the key is a separate field or the child's
    value for it is truthy. *)
Definition populateKey (key : string) (pv : JsValue)
    (child : gmap string JsValue) : gmap string JsValue :=
  if negb (bool_decide (key ∈ separateConfigFields)) && negb (truthy (get child key))
  then <[key := pv]> child
  else child.

(** [populateConfig(child, parent)]: [Object.keys(parent || {}).forEach(...)],
    returning the updated child. *)
Definition populateConfig (child : gmap string JsValue)
    (parent : option (gmap string JsValue)) : gmap string JsValue :=
  map_fold populateKey child (default ∅ parent).

(** [chain.ID == id]; chain identifiers are strings, on which [==] is string
    equality. *)
Definition idIs (chain : gmap string JsValue) (id : string) : bool :=
  match get chain "ID" with
  | JStr s => String.eqb s id
  | _ => false
  end.

(** [getChainByID(chains, id)]: the [forEach] overwrites [reply] at every
    chain whose [ID] matches, so the last match is returned. *)
Definition getChainByID (chains : list (gmap string JsValue)) (id : string)
    : option (gmap string JsValue) :=
  fold_left (fun reply chain => if idIs chain id then Some chain else reply)
            chains None.

(** The body of [erc20tokens.forEach] as far as the token's configuration is
    concerned: a token with a truthy [HOSTID] is populated from the chain of
    that identifier. [HOSTID] is a string in the configuration file. *)
Definition mergeToken (evmchains : list (gmap string JsValue))
    (token : gmap string JsValue) : gmap string JsValue :=
  match get token "HOSTID" with
  | JStr h =>
      if truthy (JStr h) then populateConfig token (getChainByID evmchains h)
      else token
  | _ => token
  end.

(** [erc20tokens] after the start-up loop ([erc20tokens[i] = token]). *)
Definition mergedTokens (evmchains erc20tokens : list (gmap string JsValue))
    : list (gmap string JsValue) :=
  mergeToken evmchains <$> erc20tokens.

(** What [populateConfig] leaves at a key, in closed form. *)
Definition populated (child parent : gmap string JsValue) (key : string)
    : option JsValue :=
  if negb (bool_decide (key ∈ separateConfigFields)) && negb (truthy (get child key))
  then match parent !! key with
       | Some pv => Some pv
       | None => child !! key
       end
  else child !! key.

End Registry.
Import Registry.

(** ** Types of the handlers *)

Module Types.

(** The fields of a chain or token configuration that the handlers read. *)
Record ChainType := {
  ID : string;
  DRIP_AMOUNT : Q;
  COUPON_REQUIRED : option bool;
  MAINNET_BALANCE_CHECK_ENABLED : option bool
}.

(** [SendTokenResponse]: what the chain instance hands to the callback of
    [sendToken]; [txHash] is optional. *)
Record SendTokenResponse := {
  status : Z;
  message : string;
  txHash : option string
}.

(** What a call of [instance.sendToken(address, id, amount, cb)] leads to:
    the callback is run with a response, it is never run, or the call itself
    throws. *)
Inductive SendOutcome :=
| Replied (data : SendTokenResponse)
| Silent
| Thrown (errMessage : string).

(** The EVM instance ([./vms/evm]) as the handlers use it: the [config] of
    each entry of its [contracts] map, and its methods. *)
Record EVM := {
  contracts : gmap string ChainType;
  sendToken : option string -> option string -> option Q -> SendOutcome;
  getBalance : option string -> option Z
}.

Record EVMInstanceAndConfig := {
  config : ChainType;
  instance : EVM
}.

(** Modelled from the spec: the enum [PIPELINE_CHECKS] of
    [./utils/pipelineChecks], which is not part of the sources; the spec
    gives [checkPassedType] as one of NONE, COUPON, MAINNET_BALANCE. *)
Inductive PIPELINE_CHECKS := NONE | COUPON | MAINNET_BALANCE.

(** Modelled from the spec: the record [PipelineCheckValidity] of
    [./utils/pipelineChecks]; the handler creates it as
    [{isValid: false, dripAmount}], the other fields being unset. *)
Record PipelineCheckValidity := {
  isValid : bool;
  dripAmount : Q;
  checkPassedType : option PIPELINE_CHECKS;
  errorMessage : option string;
  mainnetBalance : option Q
}.

(** [checkPassedType === PIPELINE_CHECKS.COUPON] *)
Definition passedCoupon (pv : PipelineCheckValidity) : bool :=
  match checkPassedType pv with
  | Some COUPON => true
  | _ => false
  end.

(** The body of a response. *)
Inductive Body :=
| Message (msg : string)
| MessageTx (msg : string) (hash : option string)
| MessageData (msg : string) (nativeTxHash erc20TxHash : JsValue)
| Balance (balance : string).

(** What a handler does, in order. *)
Inductive Effect :=
| CheckCoupon (faucetConfigId : string) (coupon : option string)
| CheckMainnetBalance (rpc : string) (address : option string)
| SendToken (address erc20 : option string) (amount : option Q)
| ReclaimCouponAmount (coupon : string) (amount : Q)
| Respond (code : Z) (body : Body).

(** A computation that performs effects and yields a value. *)
Definition Run (A : Type) : Type := list Effect * A.

#[export] Instance Run_ret : MRet Run := fun A a => ([], a).
#[export] Instance Run_bind : MBind Run := fun A B k m =>
  let (t1, a) := m in let (t2, b) := k a in ((t1 ++ t2)%list, b).

(** A collaborator call: the effect is recorded, the result returned. *)
Definition call {A} (e : Effect) (result : A) : Run A := ([e], result).

(** A hash as it appears in a JSON payload. *)
Definition hashValue (h : option string) : JsValue :=
  match h with
  | Some s => JStr s
  | None => JUndefined
  end.

(** The request bodies, as the handlers destructure them. *)
Record SendTokenRequest := {
  st_address : option string;
  st_chain : option string;
  st_erc20 : option string;
  st_couponId : option string
}.

Record ClaimTokenRequest := {
  ct_address : option string;
  ct_chain : option string;
  ct_amount : option Q;
  ct_erc20 : option string;
  ct_coupon : option string
}.

Record BatchClaimRequest := {
  bt_address : option string;
  bt_chain : option string;
  bt_kiteAmount : option Q;
  bt_erc20 : option string;
  bt_erc20Amount : option Q;
  bt_coupon : option string
}.

Record BalanceQuery := {
  gb_chain : option string;
  gb_erc20 : option string
}.

End Types.
Import Types.

(** ** The rate limiter's key *)

Module Limiter.

(** [req.body?.address] *)
Definition bodyAddress (body : option (gmap string JsValue)) : JsValue :=
  match body with
  | Some b => get b "address"
  | None => JUndefined
  end.

(** The key generator of the address rate limiter:
    [const addr = req.body?.address;
     if (typeof addr == "string" && addr) return addr.toUpperCase()].
    A function that falls off its end returns [undefined]. *)
Definition keyGenerator (body : option (gmap string JsValue)) : option string :=
  let addr := bodyAddress body in
  match addr with
  | JStr s => if isString addr && truthy addr then Some (toUpperCase s) else None
  | _ => None
  end.


End Limiter.
Import Limiter.

(** ** The handlers *)

Module Handlers.

Section Server.

(** [couponConfig.IS_ENABLED], [MAINNET_BALANCE_CHECK_RPC] of [config.json],
    and [process.env.NEO_COUPON_ID]. *)
Variable IS_ENABLED : bool.
Variable MAINNET_BALANCE_CHECK_RPC : string.
Variable NEO_COUPON_ID : option string.

(** [evms]: the table of the chain instances, by chain identifier. *)
Variable evms : gmap string EVMInstanceAndConfig.

(** The pipeline checks of [./utils/pipelineChecks]. They update the
    validity record they are given; here they return the updated record. *)
Variable checkCouponPipeline :
  PipelineCheckValidity -> string -> option string -> PipelineCheckValidity.
Variable checkMainnetBalancePipeline :
  PipelineCheckValidity -> string -> option string -> PipelineCheckValidity.
Variable pipelineFailureMessage : string -> bool -> string.

(** [evms.get(chain)] *)
Definition getEvm (chain : option string) : option EVMInstanceAndConfig :=
  chain ≫= fun c => evms !! c.

(** [evm?.instance?.contracts?.get(erc20 ?? "")] *)
Definition getErc20Instance (evm : option EVMInstanceAndConfig)
    (erc20 : option string) : option ChainType :=
  evm ≫= fun e => contracts (instance e) !! default "" erc20.

(** [evm === undefined || (erc20 && erc20Instance === undefined)] *)
Definition invalidParams (evm : option EVMInstanceAndConfig)
    (erc20 : option string) (erc20Instance : option ChainType) : bool :=
  negb (bool_decide (is_Some evm))
  || (truthyStr erc20 && negb (bool_decide (is_Some erc20Instance))).

(** The callback given to [sendToken] by [/sendToken]: the coupon is
    reclaimed if the transaction failed, then the response is sent. *)
Definition sendTokenCallback (pipelineValidity : PipelineCheckValidity)
    (coupon : option string) (data : SendTokenResponse) : list Effect :=
  (if passedCoupon pipelineValidity && truthyStr coupon
      && bool_decide (txHash data = None)
   then [ReclaimCouponAmount (default "" coupon) (dripAmount pipelineValidity)]
   else [])
  ++ [Respond (status data) (MessageTx (message data) (txHash data))].

(** The callback given to [sendToken] by [/claimToken]. *)
Definition claimTokenCallback (data : SendTokenResponse) : list Effect :=
  [Respond (status data) (MessageTx (message data) (txHash data))].

(** A call of [sendToken] with a callback: the call, then what the callback
    does if it is run. A call that throws ends the handler. *)
Definition dispatch (evm : EVMInstanceAndConfig) (address erc20 : option string)
    (amount : option Q) (cb : SendTokenResponse -> list Effect) : list Effect :=
  SendToken address erc20 amount ::
  match sendToken (instance evm) address erc20 amount with
  | Replied data => cb data
  | Silent | Thrown _ => []
  end.

(** [mainnetCheckEnabled] and [couponCheckEnabled] of [/sendToken]. *)
Definition mainnetCheckEnabled (evm : EVMInstanceAndConfig)
    (erc20Instance : option ChainType) : bool :=
  default false
    match erc20Instance with
    | Some t => MAINNET_BALANCE_CHECK_ENABLED t
    | None => MAINNET_BALANCE_CHECK_ENABLED (config evm)
    end.

Definition couponCheckEnabled (evm : EVMInstanceAndConfig)
    (erc20Instance : option ChainType) : bool :=
  IS_ENABLED &&
  default false
    match erc20Instance with
    | Some t => COUPON_REQUIRED t
    | None => COUPON_REQUIRED (config evm)
    end.

(** The two pipeline checks of [/sendToken], each run only if the validity is
    not yet established; the mainnet check is not run if a coupon is given. *)
Definition pipelineChecks (pipelineValidity : PipelineCheckValidity)
    (faucetConfigId : string) (coupon address : option string)
    (couponEnabled mainnetEnabled : bool) : Run PipelineCheckValidity :=
  pv ← (if negb (isValid pipelineValidity) && couponEnabled
        then call (CheckCoupon faucetConfigId coupon)
                  (checkCouponPipeline pipelineValidity faucetConfigId coupon)
        else mret pipelineValidity);
  if negb (isValid pv) && negb (truthyStr coupon) && mainnetEnabled
  then call (CheckMainnetBalance MAINNET_BALANCE_CHECK_RPC address)
            (checkMainnetBalancePipeline pv MAINNET_BALANCE_CHECK_RPC address)
  else mret pv.

(** [{isValid: false, dripAmount}] *)
Definition initialValidity (dripAmount : Q) : PipelineCheckValidity :=
  {| isValid := false; dripAmount := dripAmount;
     checkPassedType := None; errorMessage := None; mainnetBalance := None |}.

(** [router.post('/sendToken', ...)]. The debug log is left out. *)
Definition sendTokenHandler (req : SendTokenRequest) : list Effect :=
  let address := st_address req in
  let erc20 := st_erc20 req in
  let coupon := st_couponId req in
  let evm := getEvm (st_chain req) in
  let erc20Instance := getErc20Instance evm erc20 in
  match evm with
  | None => [Respond 400 (Message "Invalid parameters passed!")]
  | Some evm' =>
      if invalidParams evm erc20 erc20Instance
      then [Respond 400 (Message "Invalid parameters passed!")]
      else
        let faucetConfigId := default (ID (config evm')) (ID <$> erc20Instance) in
        let dripAmount :=
          default (DRIP_AMOUNT (config evm')) (DRIP_AMOUNT <$> erc20Instance) in
        let mainnetEnabled := mainnetCheckEnabled evm' erc20Instance in
        let couponEnabled := couponCheckEnabled evm' erc20Instance in
        let '(checks, pipelineValidity) :=
          pipelineChecks (initialValidity dripAmount)
            faucetConfigId coupon address couponEnabled mainnetEnabled in
        checks ++
        if (mainnetEnabled || couponEnabled) && negb (isValid pipelineValidity)
        then [Respond 400
                (Message (concatUndef (errorMessage pipelineValidity)
                            (pipelineFailureMessage MAINNET_BALANCE_CHECK_RPC
                                                    couponEnabled)))]
        else dispatch evm' address erc20
               (Some (Types.dripAmount pipelineValidity))
               (sendTokenCallback pipelineValidity coupon)
  end.

(** [router.post('/claimToken', ...)] *)
Definition claimTokenHandler (req : ClaimTokenRequest) : list Effect :=
  let dripAmount := ct_amount req in
  let erc20 := ct_erc20 req in
  if negb (truthyNum dripAmount) || leZero dripAmount
  then [Respond 400 (Message "Invalid amount passed!")]
  else if negb (bool_decide (ct_coupon req = NEO_COUPON_ID))
  then [Respond 400 (Message "Invalid coupon passed!")]
  else
    let evm := getEvm (ct_chain req) in
    let erc20Instance := getErc20Instance evm erc20 in
    match evm with
    | None => [Respond 400 (Message "Invalid parameters passed!")]
    | Some evm' =>
        if invalidParams evm erc20 erc20Instance
        then [Respond 400 (Message "Invalid parameters passed!")]
        else dispatch evm' (ct_address req) erc20 dripAmount claimTokenCallback
    end.

(** The [then]/[catch] of [Promise.all([nativeTransferPromise,
    erc20TransferPromise])]. A leg whose call throws rejects its promise, and
    the first rejection is answered; while a leg has not replied and none has
    thrown, nothing is answered. *)
Definition batchSettle (nativeLeg erc20Leg : SendOutcome) : list Effect :=
  match nativeLeg, erc20Leg with
  | Thrown errMessage, _ => [Respond 400 (Message errMessage)]
  | _, Thrown errMessage => [Respond 400 (Message errMessage)]
  | Replied nativeTransfer, Replied erc20Transfer =>
      if (status nativeTransfer =? 200)%Z && (status erc20Transfer =? 200)%Z
      then [Respond 200 (MessageData "Tokens sent successfully"
                           (hashValue (txHash nativeTransfer))
                           (hashValue (txHash erc20Transfer)))]
      else if (status nativeTransfer =? 200)%Z
      then [Respond 400 (MessageData "Native token sent successfully"
                           (hashValue (txHash nativeTransfer)) JNull)]
      else if (status erc20Transfer =? 200)%Z
      then [Respond 400 (MessageData "ERC20 token sent successfully"
                           JNull (hashValue (txHash erc20Transfer)))]
      else [Respond 400 (Message "Failed to send tokens")]
  | _, _ => []
  end.

(** [router.post('/batchClaimToken', ...)] *)
Definition batchClaimTokenHandler (req : BatchClaimRequest) : list Effect :=
  let address := bt_address req in
  let chain := Some (default "KITE" (bt_chain req)) in
  let kiteAmount := bt_kiteAmount req in
  let erc20 := Some (default "USDT" (bt_erc20 req)) in
  let erc20Amount := bt_erc20Amount req in
  if negb (truthyNum kiteAmount) || leZero kiteAmount
  then [Respond 400 (Message "Invalid amount passed!")]
  else if negb (bool_decide (bt_coupon req = NEO_COUPON_ID))
  then [Respond 400 (Message "Invalid coupon passed!")]
  else
    let evm := getEvm chain in
    let erc20Instance := getErc20Instance evm erc20 in
    match evm with
    | None => [Respond 400 (Message "Invalid parameters passed!")]
    | Some evm' =>
        if invalidParams evm erc20 erc20Instance
        then [Respond 400 (Message "Invalid parameters passed!")]
        else
          SendToken address None kiteAmount ::
          SendToken address erc20 erc20Amount ::
          batchSettle (sendToken (instance evm') address None kiteAmount)
                      (sendToken (instance evm') address erc20 erc20Amount)
    end.

(** [router.get('/getBalance', ...)]: a falsy balance, [undefined] for an
    unknown chain included, is replaced by [BigInt(0)]; [toString] of a
    bigint is its decimal notation. *)
Definition getBalanceHandler (q : BalanceQuery) : list Effect :=
  let evm := getEvm (gb_chain q) in
  let balance := evm ≫= fun e => getBalance (instance e) (gb_erc20 q) in
  let balance :=
    match balance with
    | Some b => if (b =? 0)%Z then 0%Z else b
    | None => 0%Z
    end in
  [Respond 200 (Balance (pretty balance))].

End Server.

End Handlers.
Import Handlers.

(** ** The aggregation table of the specification *)

Module Table.

(** The two ways to tell whether a settled leg succeeded: by the status the
    collaborator reported, and by the presence of a transaction hash. *)
Definition byStatus (r : SendTokenResponse) : bool := (status r =? 200)%Z.
Definition byHash (r : SendTokenResponse) : bool := bool_decide (is_Some (txHash r)).

(** The four rows of the aggregation rule, for a given notion of success:
    the status of the response and the hashes of its payload. The table
    leaves the message open. *)
Definition matchesTable (succeeded : SendTokenResponse -> bool)
    (native erc20 : SendTokenResponse) (response : Effect) : Prop :=
  match succeeded native, succeeded erc20 with
  | true, true =>
      exists msg, response =
        Respond 200 (MessageData msg (hashValue (txHash native))
                                     (hashValue (txHash erc20)))
  | true, false =>
      exists msg, response =
        Respond 400 (MessageData msg (hashValue (txHash native)) JNull)
  | false, true =>
      exists msg, response =
        Respond 400 (MessageData msg JNull (hashValue (txHash erc20)))
  | false, false =>
      exists msg, response = Respond 400 (Message msg)
  end.

(** The resolved configuration of a request: the token's configuration if
    an erc20 was resolved, else the chain's. *)
Definition resolvedConfig (evm : EVMInstanceAndConfig)
    (erc20Instance : option ChainType) : ChainType :=
  default (config evm) erc20Instance.

(** The status code and the message of a response. *)
Definition codeAndMessage (e : Effect) : option (Z * string) :=
  match e with
  | Respond code (Message msg) => Some (code, msg)
  | Respond code (MessageTx msg _) => Some (code, msg)
  | Respond code (MessageData msg _ _) => Some (code, msg)
  | _ => None
  end.

End Table.
Import Table.

(** ** Sample configurations and collaborators

    Concrete inputs on which the handlers are evaluated. *)

Module Sample.

(** A chain that asks for a coupon or a mainnet balance, and a token hosted
    on it that asks for neither. *)
Definition kite : ChainType :=
  {| ID := "KITE"; DRIP_AMOUNT := 2;
     COUPON_REQUIRED := Some true; MAINNET_BALANCE_CHECK_ENABLED := Some true |}.

Definition usdt : ChainType :=
  {| ID := "USDT"; DRIP_AMOUNT := 5;
     COUPON_REQUIRED := None; MAINNET_BALANCE_CHECK_ENABLED := None |}.

Definition sentTx (hash : string) : SendTokenResponse :=
  {| status := 200; message := "Transaction successful"; txHash := Some hash |}.

Definition failedTx : SendTokenResponse :=
  {| status := 400; message := "Transaction failed"; txHash := None |}.


(** A response with status 200 and no hash, and one with a hash and status
    400. *)
Definition queuedTx : SendTokenResponse :=
  {| status := 200; message := "Transaction queued"; txHash := None |}.

Definition revertedTx : SendTokenResponse :=
  {| status := 400; message := "Transaction reverted"; txHash := Some "0xe2" |}.

(** An instance on which every transfer goes through. *)
Definition working : EVM :=
  {| contracts := {[ "USDT" := usdt ]};
     sendToken := fun _ _ _ => Replied (sentTx "0xa1");
     getBalance := fun _ => Some 1500%Z |}.

(** An instance on which every transfer fails. *)
Definition failing : EVM :=
  {| contracts := {[ "USDT" := usdt ]};
     sendToken := fun _ _ _ => Replied failedTx;
     getBalance := fun _ => None |}.

Definition evms (i : EVM) : gmap string EVMInstanceAndConfig :=
  {[ "KITE" := {| config := kite; instance := i |} ]}.

(** A coupon check over a ledger that honours every coupon identifier it is
    given, the empty one included. *)
Definition couponAccepted (pv : PipelineCheckValidity) (faucetConfigId : string)
    (coupon : option string) : PipelineCheckValidity :=
  match coupon with
  | Some _ =>
      {| isValid := true; dripAmount := dripAmount pv;
         checkPassedType := Some COUPON; errorMessage := errorMessage pv;
         mainnetBalance := mainnetBalance pv |}
  | None =>
      {| isValid := isValid pv; dripAmount := dripAmount pv;
         checkPassedType := checkPassedType pv;
         errorMessage := Some "Coupon is required for this chain or token! ";
         mainnetBalance := mainnetBalance pv |}
  end.

(** A coupon check over an empty ledger: no coupon is valid. *)
Definition couponRejected (pv : PipelineCheckValidity) (faucetConfigId : string)
    (coupon : option string) : PipelineCheckValidity :=
  {| isValid := isValid pv; dripAmount := dripAmount pv;
     checkPassedType := checkPassedType pv;
     errorMessage := Some "Invalid or expired coupon passed! ";
     mainnetBalance := mainnetBalance pv |}.

(** A mainnet check for an address whose balance is sufficient. *)
Definition mainnetSufficient (pv : PipelineCheckValidity) (rpc : string)
    (address : option string) : PipelineCheckValidity :=
  {| isValid := true; dripAmount := dripAmount pv;
     checkPassedType := Some MAINNET_BALANCE; errorMessage := errorMessage pv;
     mainnetBalance := Some 1%Q |}.

Definition failureMessage (rpc : string) (couponCheckEnabled : bool) : string :=
  if couponCheckEnabled then "Either mainnet balance or a valid coupon is required."
  else "Mainnet balance is required.".

Definition rpc : string := "https://rpc.example".

(** A [/sendToken] request for the native asset of the chain, with the given
    [couponId], and one for the token hosted on it. *)
Definition nativeRequest (couponId : option string) : SendTokenRequest :=
  {| st_address := Some "0xabc"; st_chain := Some "KITE";
     st_erc20 := None; st_couponId := couponId |}.

(** A batch claim of 1 native unit and the given amount of the default
    token, on the default chain. *)
Definition batchRequest (erc20Amount : option Q) : BatchClaimRequest :=
  {| bt_address := Some "0xabc"; bt_chain := None; bt_kiteAmount := Some 1%Q;
     bt_erc20 := None; bt_erc20Amount := erc20Amount; bt_coupon := Some "neo" |}.

Definition tokenRequest : SendTokenRequest :=
  {| st_address := Some "0xabc"; st_chain := Some "KITE";
     st_erc20 := Some "USDT"; st_couponId := None |}.

(** Raw configuration objects, as in the configuration file. *)
Definition kiteObject : gmap string JsValue :=
  {[ "ID" := JStr "KITE"; "DRIP_AMOUNT" := JNum 2; "DECIMALS" := JNum 18;
     "COUPON_REQUIRED" := JBool true ]}.

Definition usdtObject : gmap string JsValue :=
  {[ "ID" := JStr "USDT"; "HOSTID" := JStr "KITE"; "DECIMALS" := JNum 0 ]}.

End Sample.

(** ** The rest of the server: start-up table, fallback route, traces *)

Module Server.

(** The loop [evmchains.forEach] that fills [evms]: each chain is set under
    its [ID], a later chain replacing an earlier one of the same [ID]. The
    constructor of the instance, [new EVM(chain, key)], is a parameter. *)
Definition setupEvms (newEVM : ChainType -> EVM) (evmchains : list ChainType)
    : gmap string EVMInstanceAndConfig :=
  fold_left
    (fun evms chain =>
       <[ID chain := {| config := chain; instance := newEVM chain |}]> evms)
    evmchains ∅.

(** What the fallback route [app.get('*')] does. *)
Inductive Fallback :=
| SendFile (segments : list string)
| Redirect (url : string).

(** [app.get('*', ...)]: the client's page if the native client is served,
    else a redirect whose query carries the subnet and, with it, the token.
    The two query parameters are taken as strings. *)
Definition fallbackRoute (NATIVE_CLIENT : bool) (dirname : string)
    (subnet erc20 : option string) : Fallback :=
  let chain := subnet in
  if NATIVE_CLIENT
  then SendFile [dirname; "client"; "index.html"]
  else Redirect
         ("https://core.app/tools/testnet-faucet" +:+
          (if truthyStr chain
           then "?subnet=" +:+ default "" chain +:+
                (if truthyStr erc20 then "&token=" +:+ default "" erc20 else "")
           else "")).

(** The [configs] field of the answer of [router.get('/getChainConfigs',
    ...)]: the chains, then the tokens as the start-up loop left them. *)
Definition getChainConfigs (evmchains erc20tokens : list (gmap string JsValue))
    : list (gmap string JsValue) :=
  (evmchains ++ mergedTokens evmchains erc20tokens)%list.

(** Kinds of effects in a trace. *)
Definition isRespond (e : Effect) : bool :=
  match e with Respond _ _ => true | _ => false end.

Definition isSendToken (e : Effect) : bool :=
  match e with SendToken _ _ _ => true | _ => false end.

Definition isCheck (e : Effect) : bool :=
  match e with CheckCoupon _ _ | CheckMainnetBalance _ _ => true | _ => false end.

(** A trace answers at most once, and after everything else it does. *)
Definition answersLast (trace : list Effect) : Prop :=
  exists calls,
    Forall (fun e => isRespond e = false) calls /\
    (trace = calls \/ exists code body, trace = (calls ++ [Respond code body])%list).

(** A batch request with the defaults of the handler written out. *)
Definition withDefaults (req : BatchClaimRequest) : BatchClaimRequest :=
  {| bt_address := bt_address req;
     bt_chain := Some (default "KITE" (bt_chain req));
     bt_kiteAmount := bt_kiteAmount req;
     bt_erc20 := Some (default "USDT" (bt_erc20 req));
     bt_erc20Amount := bt_erc20Amount req;
     bt_coupon := bt_coupon req |}.

End Server.
Import Server.

(** An instance whose native transfer throws when called, while its token
    transfer goes through. *)
Module Faults.

Definition throwingNative : EVM :=
  {| contracts := {[ "USDT" := Sample.usdt ]};
     sendToken := fun _ erc20 _ =>
       match erc20 with
       | None => Thrown "nonce too low"
       | Some _ => Replied (Sample.sentTx "0xe2")
       end;
     getBalance := fun _ => None |}.

End Faults.

(** * Properties *)

Lemma populateConfig_lookup child parent key :
  populateConfig child (Some parent) !! key = populated child parent key.
Proof.
  unfold populateConfig; simpl.
  apply (map_fold_weak_ind
           (fun acc m => forall k, acc !! k = populated child m k)).
  - intros k. unfold populated. rewrite lookup_empty. by destruct (_ && _).
  - intros i x m acc Hfresh IH k.
    assert (Hi : get acc i = get child i).
    { unfold get. rewrite (IH i). unfold populated.
      rewrite Hfresh. by destruct (_ && _). }
    unfold populateKey. rewrite Hi.
    destruct (decide (i = k)) as [->|Hne].
    + unfold populated. rewrite lookup_insert_eq.
      destruct (_ && _) eqn:Hc.
      * by rewrite lookup_insert_eq.
      * rewrite (IH k). unfold populated. by rewrite Hc.
    + unfold populated. rewrite (lookup_insert_ne m) by done.
      destruct (negb (bool_decide (i ∈ _)) && _).
      * rewrite lookup_insert_ne by done. apply IH.
      * apply IH.
Qed.

Lemma populateConfig_no_parent child : populateConfig child None = child.
Proof. unfold populateConfig; simpl. apply map_fold_empty. Qed.


(** ** Registry *)

Section RegistryFacts.

Implicit Types child parent token host : gmap string JsValue.
Implicit Types key : string.

(** A key the parent has and the child lacks is copied, unless it is a
    separate field. *)
Lemma populateConfig_inherits child parent key v :
  parent !! key = Some v -> child !! key = None ->
  key ∉ separateConfigFields ->
  populateConfig child (Some parent) !! key = Some v.
Proof.
  intros Hp Hc Hsep. rewrite populateConfig_lookup. unfold populated, get.
  rewrite Hc, Hp; simpl. by rewrite bool_decide_eq_false_2.
Qed.

(** A separate field is never copied. *)
Lemma populateConfig_separate child parent key :
  key ∈ separateConfigFields ->
  populateConfig child (Some parent) !! key = child !! key.
Proof.
  intros Hsep. rewrite populateConfig_lookup. unfold populated.
  by rewrite bool_decide_eq_true_2.
Qed.

(** A key whose value on the child is truthy is left as it is. *)
Lemma populateConfig_truthy_kept child parent key :
  truthy (get child key) = true ->
  populateConfig child (Some parent) !! key = child !! key.
Proof.
  intros Ht. rewrite populateConfig_lookup. unfold populated.
  rewrite Ht. by rewrite andb_false_r.
Qed.

(** A key whose value on the child is falsy is overwritten with the
    parent's, whether the child had set it or not. *)
Lemma populateConfig_falsy_overwritten child parent key v :
  parent !! key = Some v -> truthy (get child key) = false ->
  key ∉ separateConfigFields ->
  populateConfig child (Some parent) !! key = Some v.
Proof.
  intros Hp Hf Hsep. rewrite populateConfig_lookup. unfold populated.
  rewrite Hf, Hp. by rewrite bool_decide_eq_false_2.
Qed.

(** Start-up merge: a token whose [HOSTID] names a chain of the
    configuration is populated from that chain. *)
Lemma mergeToken_resolved evmchains token h host :
  get token "HOSTID" = JStr h -> h ≠ "" ->
  getChainByID evmchains h = Some host ->
  mergeToken evmchains token = populateConfig token (Some host).
Proof.
  intros HH Hne Hhost. unfold mergeToken. rewrite HH; simpl.
  destruct (String.eqb_spec h ""); [done|]. simpl. by rewrite Hhost.
Qed.

(** Whatever the host, the start-up merge leaves the separate fields of a
    token as they are. *)
Lemma mergeToken_separate evmchains token key :
  key ∈ separateConfigFields ->
  mergeToken evmchains token !! key = token !! key.
Proof.
  intros Hsep. unfold mergeToken.
  destruct (get token "HOSTID") as [| |b|q|h|r]; try done.
  destruct (truthy (JStr h)); [|done].
  destruct (getChainByID evmchains h) as [host|].
  - by apply populateConfig_separate.
  - by rewrite populateConfig_no_parent.
Qed.

(** A token whose [HOSTID] names no chain of the configuration is left as it
    is. *)
Lemma mergeToken_unresolved evmchains token h :
  get token "HOSTID" = JStr h -> getChainByID evmchains h = None ->
  mergeToken evmchains token = token.
Proof.
  intros HH Hnone. unfold mergeToken. rewrite HH, Hnone.
  rewrite populateConfig_no_parent. by destruct (truthy _).
Qed.

(** The chain [getChainByID] returns carries the identifier asked for. *)
Lemma getChainByID_id evmchains id host :
  getChainByID evmchains id = Some host -> get host "ID" = JStr id.
Proof.
  unfold getChainByID.
  assert (Hgen : forall acc,
    (forall c, acc = Some c -> get c "ID" = JStr id) ->
    fold_left (fun reply chain => if idIs chain id then Some chain else reply)
              evmchains acc = Some host -> get host "ID" = JStr id).
  { induction evmchains as [|c cs IH]; simpl; intros acc Hacc Hfold.
    - by apply Hacc.
    - apply (fun H => IH _ H Hfold).
      intros c' Hc'. destruct (idIs c id) eqn:Hid.
      + injection Hc' as <-. unfold idIs in Hid.
        destruct (get c "ID"); try done.
        by apply String.eqb_eq in Hid as ->.
      + by apply Hacc. }
  apply Hgen. intros c Hc. discriminate.
Qed.

End RegistryFacts.

(** C5, at the failing input. A token that sets [DECIMALS] to 0 on a
    host whose [DECIMALS] is 18 comes out of the start-up merge with
    [DECIMALS] 18: a field the token had set to a falsy value is overwritten
    with the host's value, where the claim says it is left unchanged. The
    fields the token lacks are inherited and the separate fields are not
    copied, as the claim says. *)
Theorem mergeToken_overwrites_zero :
  Sample.usdtObject !! "DECIMALS" = Some (JNum 0) /\
  mergeToken [Sample.kiteObject] Sample.usdtObject !! "DECIMALS" = Some (JNum 18) /\
  mergeToken [Sample.kiteObject] Sample.usdtObject !! "DRIP_AMOUNT" = Some (JNum 2) /\
  mergeToken [Sample.kiteObject] Sample.usdtObject !! "COUPON_REQUIRED" = None.
Proof.
  assert (Hm : mergeToken [Sample.kiteObject] Sample.usdtObject
               = populateConfig Sample.usdtObject (Some Sample.kiteObject)).
  { apply (mergeToken_resolved _ _ "KITE").
    - vm_compute; reflexivity.
    - discriminate.
    - vm_compute; reflexivity. }
  rewrite Hm.
  assert (Hsep : forall key, key ∈ separateConfigFields ->
                 key = "COUPON_REQUIRED" \/ key = "MAINNET_BALANCE_CHECK_ENABLED").
  { intros key. unfold separateConfigFields.
    rewrite !elem_of_cons, elem_of_nil. tauto. }
  split; [vm_compute; reflexivity|].
  split; [|split].
  - apply populateConfig_falsy_overwritten.
    + vm_compute; reflexivity.
    + vm_compute; reflexivity.
    + intros [H|H]%Hsep; discriminate H.
  - apply populateConfig_inherits.
    + vm_compute; reflexivity.
    + vm_compute; reflexivity.
    + intros [H|H]%Hsep; discriminate H.
  - rewrite populateConfig_separate.
    + vm_compute; reflexivity.
    + unfold separateConfigFields. apply elem_of_cons. by left.
Qed.

(** ** Rate limiter key *)



Lemma toUpperCase_length s : String.length (toUpperCase s) = String.length s.
Proof. induction s as [|c s IH]; simpl; congruence. Qed.

Example toUpperCase_address :
  toUpperCase "0xde0b295669a9fd93d5f28d9ec85e40f4cb697bae"
  = "0XDE0B295669A9FD93D5F28D9EC85E40F4CB697BAE".
Proof. reflexivity. Qed.

Lemma keyGenerator_string body s :
  bodyAddress body = JStr s -> s ≠ "" -> keyGenerator body = Some (toUpperCase s).
Proof.
  unfold keyGenerator. intros -> Hne. simpl. by destruct (String.eqb_spec s "").
Qed.



(** Addresses that differ in letter case only share one key. *)
Lemma keyGenerator_case_insensitive (s t : string) :
  s ≠ "" -> t ≠ "" -> toUpperCase s = toUpperCase t ->
  keyGenerator (Some {[ "address" := JStr s ]})
  = keyGenerator (Some {[ "address" := JStr t ]}).
Proof.
  intros Hs Ht Heq.
  assert (Haddr : forall u, bodyAddress (Some {[ "address" := JStr u ]}) = JStr u).
  { intros u. unfold bodyAddress, get. by rewrite lookup_singleton_eq. }
  rewrite (keyGenerator_string _ s), (keyGenerator_string _ t) by auto.
  by rewrite Heq.
Qed.

(** ** Amount validation *)

(** [!amount || amount <= 0] holds exactly for a missing, zero or negative
    amount. *)
Lemma amount_rejected (amount : option Q) :
  negb (truthyNum amount) || leZero amount = true <->
  amount = None \/ exists q, amount = Some q /\ (q <= 0)%Q.
Proof.
  destruct amount as [q|]; simpl.
  - rewrite negb_involutive, orb_true_iff, Qeq_bool_iff, Qle_bool_iff. split.
    + intros [H|H]; right; exists q; split; auto. rewrite H. apply Qle_refl.
    + intros [H|(q' & [= <-] & H)]; [done|]. by right.
  - split; [by left|done].
Qed.

Lemma amount_accepted (amount : option Q) :
  negb (truthyNum amount) || leZero amount = false <->
  exists q, amount = Some q /\ (0 < q)%Q.
Proof.
  destruct amount as [q|]; simpl.
  - rewrite negb_involutive, orb_false_iff. split.
    + intros [_ H]. exists q. split; [done|].
      apply Qnot_le_lt. intros Hle. apply Qle_bool_iff in Hle. congruence.
    + intros (q' & [= <-] & H). split.
      * destruct (Qeq_bool q 0) eqn:E; [|done].
        apply Qeq_bool_iff in E. rewrite E in H. by apply Qlt_irrefl in H.
      * destruct (Qle_bool q 0) eqn:E; [|done].
        apply Qle_bool_iff in E. by apply Qle_not_lt in E.
  - split; [done|]. by intros (q & ? & _).
Qed.

(** ** Batch dispatch *)

Lemma batchSettle_status (n e : SendTokenResponse) :
  exists response,
    batchSettle (Replied n) (Replied e) = [response] /\
    matchesTable byStatus n e response.
Proof.
  unfold batchSettle, matchesTable, byStatus.
  destruct (status n =? 200)%Z, (status e =? 200)%Z; simpl; eauto.
Qed.

(** When each leg reports status 200 exactly when it reports a hash, the two
    ways of telling success agree and the answer is also the row that the
    hashes select. *)
Lemma batchSettle_hash_when_consistent (n e : SendTokenResponse) :
  byStatus n = byHash n -> byStatus e = byHash e ->
  exists response,
    batchSettle (Replied n) (Replied e) = [response] /\
    matchesTable byHash n e response.
Proof.
  intros Hn He. destruct (batchSettle_status n e) as (response & Hr & Ht).
  exists response. split; [done|].
  unfold matchesTable in *. by rewrite <- Hn, <- He.
Qed.

(** A leg whose call throws is answered 400 with the error's message,
    whatever the other leg does. *)
Lemma batchSettle_thrown (errMessage : string) (other : SendOutcome) :
  batchSettle (Thrown errMessage) other = [Respond 400 (Message errMessage)] /\
  exists msg, batchSettle other (Thrown errMessage) = [Respond 400 (Message msg)].
Proof. split; [done|]. destruct other; simpl; eauto. Qed.

(** While a leg has not reported and none has thrown, nothing is answered. *)
Lemma batchSettle_pending (n : SendTokenResponse) :
  batchSettle (Replied n) Silent = [] /\ batchSettle Silent (Replied n) = [].
Proof. done. Qed.

Section BatchFacts.

Variable NEO_COUPON_ID : option string.
Variable evms : gmap string EVMInstanceAndConfig.

Local Abbreviation handler := (batchClaimTokenHandler NEO_COUPON_ID evms).

(** A request that passes the three validations starts both transfers, the
    native one with [kiteAmount] and the token one with [erc20Amount], and
    answers from what the two report. *)
Lemma batchClaimToken_dispatches req evm :
  negb (truthyNum (bt_kiteAmount req)) || leZero (bt_kiteAmount req) = false ->
  bt_coupon req = NEO_COUPON_ID ->
  getEvm evms (Some (default "KITE" (bt_chain req))) = Some evm ->
  is_Some (contracts (instance evm) !! default "USDT" (bt_erc20 req))
    \/ default "USDT" (bt_erc20 req) = "" ->
  handler req =
    SendToken (bt_address req) None (bt_kiteAmount req) ::
    SendToken (bt_address req) (Some (default "USDT" (bt_erc20 req)))
              (bt_erc20Amount req) ::
    batchSettle
      (sendToken (instance evm) (bt_address req) None (bt_kiteAmount req))
      (sendToken (instance evm) (bt_address req)
                 (Some (default "USDT" (bt_erc20 req))) (bt_erc20Amount req)).
Proof.
  intros Hamount Hcoupon Hevm Herc20. unfold batchClaimTokenHandler.
  rewrite Hamount, bool_decide_eq_true_2 by done. simpl negb. cbv iota.
  rewrite Hevm. unfold invalidParams, getErc20Instance; simpl.
  destruct Herc20 as [Hres| ->].
  - rewrite (bool_decide_eq_true_2 (is_Some (contracts _ !! _))) by done.
    by rewrite andb_false_r.
  - done.
Qed.


(** The amount rejection of [/batchClaimToken] depends on [kiteAmount]
    alone. *)
Lemma batchClaimToken_invalid_amount req :
  handler req = [Respond 400 (Message "Invalid amount passed!")] <->
  bt_kiteAmount req = None \/ exists q, bt_kiteAmount req = Some q /\ (q <= 0)%Q.
Proof.
  rewrite <- amount_rejected. unfold batchClaimTokenHandler.
  destruct (negb (truthyNum (bt_kiteAmount req)) || leZero (bt_kiteAmount req));
    [done|].
  split; [|done].
  repeat case_match; discriminate.
Qed.


End BatchFacts.



(** C6, as amended. In batch dispatch a leg counts as failed exactly when
    the status of its settled result is not 200, whether or not the result
    carries a transaction hash: the answer is 200 exactly when both statuses
    are 200, legs with the same statuses get the same status code and
    message, and the answer is the row of the aggregation table that the
    statuses select. *)
Theorem batchSettle_by_status :
  (forall n e,
     (exists body, batchSettle (Replied n) (Replied e) = [Respond 200 body])
     <-> status n = 200%Z /\ status e = 200%Z) /\
  (forall n e n' e',
     (status n = 200%Z <-> status n' = 200%Z) ->
     (status e = 200%Z <-> status e' = 200%Z) ->
     codeAndMessage <$> batchSettle (Replied n) (Replied e)
     = codeAndMessage <$> batchSettle (Replied n') (Replied e')) /\
  (forall n e, exists response,
     batchSettle (Replied n) (Replied e) = [response] /\
     matchesTable byStatus n e response).
Proof.
  split; [|split].
  - intros n e. unfold batchSettle.
    destruct (Z.eqb_spec (status n) 200), (Z.eqb_spec (status e) 200); simpl;
      split; try (intros [body [=]]; fail); try (intros [? ?]; done); eauto.
  - intros n e n' e' Hn He. unfold batchSettle.
    destruct (Z.eqb_spec (status n) 200), (Z.eqb_spec (status e) 200),
             (Z.eqb_spec (status n') 200), (Z.eqb_spec (status e') 200);
      simpl; try reflexivity; tauto.
  - apply batchSettle_status.
Qed.

Lemma batchSettle_by_status_witness :
  codeAndMessage <$> batchSettle (Replied Sample.queuedTx) (Replied Sample.failedTx)
  = codeAndMessage <$> batchSettle (Replied (Sample.sentTx "0xa1"))
                                   (Replied Sample.revertedTx).
Proof.
  apply (proj1 (proj2 batchSettle_by_status)); simpl; split; (reflexivity || lia).
Defined.

(** C6, as stated, fails. The native leg reports status 200 without a
    hash, the token leg a hash with status 400: by the hashes the native leg
    failed and the token leg succeeded, and the answer should carry a null
    native hash and the token hash; the handler answers that the native
    token was sent and gives the token hash as null. *)
Lemma batchSettle_not_by_hash :
  batchSettle (Replied Sample.queuedTx) (Replied Sample.revertedTx)
  = [Respond 400 (MessageData "Native token sent successfully" JUndefined JNull)]
  /\ ~ exists response,
         batchSettle (Replied Sample.queuedTx) (Replied Sample.revertedTx)
         = [response] /\
         matchesTable byHash Sample.queuedTx Sample.revertedTx response.
Proof.
  split; [reflexivity|].
  intros (response & [= <-] & [msg Hmsg]). discriminate Hmsg.
Qed.

(** ** Balance *)

(** C10. [/getBalance] always answers 200 with the decimal notation of a
    balance; for an unknown chain, and for a balance that is missing or
    zero, the notation is "0". *)
Theorem getBalance_always_200 (evms : gmap string EVMInstanceAndConfig)
    (q : BalanceQuery) :
  (exists b : Z, getBalanceHandler evms q = [Respond 200 (Balance (pretty b))]) /\
  (getEvm evms (gb_chain q) = None ->
   getBalanceHandler evms q = [Respond 200 (Balance "0")]) /\
  (forall evm, getEvm evms (gb_chain q) = Some evm ->
     getBalance (instance evm) (gb_erc20 q) = None \/
     getBalance (instance evm) (gb_erc20 q) = Some 0%Z ->
     getBalanceHandler evms q = [Respond 200 (Balance "0")]) /\
  (forall evm b, getEvm evms (gb_chain q) = Some evm ->
     getBalance (instance evm) (gb_erc20 q) = Some b ->
     getBalanceHandler evms q = [Respond 200 (Balance (pretty b))]).
Proof.
  unfold getBalanceHandler. repeat split.
  - eauto.
  - by intros ->.
  - intros evm -> [H|H]; simpl; by rewrite H.
  - intros evm b -> H; simpl. rewrite H.
    by destruct (Z.eqb_spec b 0) as [->|].
Qed.

Lemma getBalance_always_200_witness :
  getBalanceHandler (Sample.evms Sample.working)
    {| gb_chain := Some "FUJI"; gb_erc20 := None |}
  = [Respond 200 (Balance "0")] /\
  getBalanceHandler (Sample.evms Sample.failing)
    {| gb_chain := Some "KITE"; gb_erc20 := None |}
  = [Respond 200 (Balance "0")] /\
  getBalanceHandler (Sample.evms Sample.working)
    {| gb_chain := Some "KITE"; gb_erc20 := Some "USDT" |}
  = [Respond 200 (Balance "1500")].
Proof.
  split; [|split].
  - apply (proj1 (proj2 (getBalance_always_200 _ _))). vm_compute; reflexivity.
  - apply (proj1 (proj2 (proj2 (getBalance_always_200 _ _)))
             {| config := Sample.kite; instance := Sample.failing |}).
    + vm_compute; reflexivity.
    + by left.
  - apply (proj2 (proj2 (proj2 (getBalance_always_200 _ _)))
             {| config := Sample.kite; instance := Sample.working |} 1500%Z).
    + vm_compute; reflexivity.
    + reflexivity.
Defined.

(** ** Claim *)

Section ClaimFacts.

Variable NEO_COUPON_ID : option string.
Variable evms : gmap string EVMInstanceAndConfig.

Local Abbreviation handler := (claimTokenHandler NEO_COUPON_ID evms).

(** C8, as amended. [/claimToken] answers 400 and starts no transfer when
    the amount is missing, zero or negative, when the coupon differs from
    the configured identifier, when the chain is unknown, or when a
    non-empty erc20 identifier does not resolve on the chain; a transfer is
    started only by a request that passes the three validations. *)
Theorem claimToken_validation (req : ClaimTokenRequest) :
  (ct_amount req = None \/ (exists q, ct_amount req = Some q /\ (q <= 0)%Q) ->
   handler req = [Respond 400 (Message "Invalid amount passed!")]) /\
  (ct_coupon req ≠ NEO_COUPON_ID ->
   exists msg, handler req = [Respond 400 (Message msg)]) /\
  (getEvm evms (ct_chain req) = None \/
   (exists id evm, ct_erc20 req = Some id /\ id ≠ "" /\
                   getEvm evms (ct_chain req) = Some evm /\
                   contracts (instance evm) !! id = None) ->
   exists msg, handler req = [Respond 400 (Message msg)]) /\
  (forall address erc20 amount,
     SendToken address erc20 amount ∈ handler req ->
     (exists q, ct_amount req = Some q /\ (0 < q)%Q) /\
     ct_coupon req = NEO_COUPON_ID /\
     exists evm, getEvm evms (ct_chain req) = Some evm /\
       forall id, ct_erc20 req = Some id -> id ≠ "" ->
                  is_Some (contracts (instance evm) !! id)).
Proof.
  split; [|split; [|split]].
  - intros H%amount_rejected. unfold claimTokenHandler. by rewrite H.
  - intros Hc. unfold claimTokenHandler.
    destruct (_ || _); [eauto|].
    rewrite bool_decide_eq_false_2 by done. simpl. eauto.
  - intros H. unfold claimTokenHandler.
    destruct (_ || _); [eauto|].
    destruct (bool_decide _); simpl; [|eauto].
    destruct H as [-> | (id & evm & Hid & Hne & Hevm & Hnone)]; [eauto|].
    rewrite Hevm, Hid. unfold invalidParams, getErc20Instance; simpl.
    rewrite Hnone. destruct (String.eqb_spec id ""); [done|].
    rewrite bool_decide_eq_false_2 by (by intros [? ?]). simpl. eauto.
  - intros address erc20 amount. unfold claimTokenHandler.
    destruct (negb (truthyNum (ct_amount req)) || leZero (ct_amount req)) eqn:Ha.
    { intros [=]%list_elem_of_singleton. }
    apply amount_accepted in Ha.
    destruct (decide (ct_coupon req = NEO_COUPON_ID)) as [Hc|Hc].
    2:{ rewrite bool_decide_eq_false_2 by done. simpl.
        intros [=]%list_elem_of_singleton. }
    rewrite bool_decide_eq_true_2 by done. simpl negb. cbv iota.
    destruct (getEvm evms (ct_chain req)) as [evm|] eqn:Hevm.
    2:{ intros [=]%list_elem_of_singleton. }
    unfold invalidParams, getErc20Instance; simpl.
    destruct (truthyStr (ct_erc20 req)
              && negb (bool_decide (is_Some
                   (contracts (instance evm) !! default "" (ct_erc20 req)))))
      eqn:Hinv.
    { intros [=]%list_elem_of_singleton. }
    intros _. split; [done|]. split; [done|].
    exists evm. split; [done|]. intros id Hid Hne.
    rewrite Hid in Hinv. simpl in Hinv.
    destruct (String.eqb_spec id ""); [done|]. simpl in Hinv.
    apply negb_false_iff, bool_decide_eq_true in Hinv. done.
Qed.

End ClaimFacts.

Lemma claimToken_validation_witness :
  claimTokenHandler (Some "neo") (Sample.evms Sample.working)
    {| ct_address := Some "0xabc"; ct_chain := Some "KITE";
       ct_amount := Some (-1)%Q; ct_erc20 := None; ct_coupon := Some "neo" |}
  = [Respond 400 (Message "Invalid amount passed!")].
Proof.
  apply (proj1 (claimToken_validation (Some "neo") (Sample.evms Sample.working) _)).
  right. exists (-1)%Q. split; [reflexivity|]. by vm_compute.
Defined.

(** C8, as stated, fails: an erc20 identifier is supplied, the empty
    string, and it does not resolve on the chain, yet the request is not
    answered 400 and the transfer is started. *)
Lemma claimToken_empty_erc20_dispatched :
  contracts Sample.working !! "" = None /\
  claimTokenHandler (Some "neo") (Sample.evms Sample.working)
    {| ct_address := Some "0xabc"; ct_chain := Some "KITE";
       ct_amount := Some 1%Q; ct_erc20 := Some ""; ct_coupon := Some "neo" |}
  = [ SendToken (Some "0xabc") (Some "") (Some 1%Q);
      Respond 200 (MessageTx "Transaction successful" (Some "0xa1")) ].
Proof. split; vm_compute; reflexivity. Qed.

(** ** Send *)




Section SendFacts.

Variable IS_ENABLED : bool.
Variable MAINNET_BALANCE_CHECK_RPC : string.
Variable evms : gmap string EVMInstanceAndConfig.
Variable checkCouponPipeline :
  PipelineCheckValidity -> string -> option string -> PipelineCheckValidity.
Variable checkMainnetBalancePipeline :
  PipelineCheckValidity -> string -> option string -> PipelineCheckValidity.
Variable pipelineFailureMessage : string -> bool -> string.

Local Abbreviation handler :=
  (sendTokenHandler IS_ENABLED MAINNET_BALANCE_CHECK_RPC evms checkCouponPipeline
                    checkMainnetBalancePipeline pipelineFailureMessage).
Local Abbreviation checksOf :=
  (pipelineChecks MAINNET_BALANCE_CHECK_RPC checkCouponPipeline
                  checkMainnetBalancePipeline).
Local Abbreviation couponEnabled := (couponCheckEnabled IS_ENABLED).

(** The checks perform no other effect than their own calls. *)
Lemma pipelineChecks_effects pv id coupon address ce me e :
  e ∈ (checksOf pv id coupon address ce me).1 ->
  e = CheckCoupon id coupon \/
  e = CheckMainnetBalance MAINNET_BALANCE_CHECK_RPC address.
Proof.
  unfold pipelineChecks, mbind, Run_bind, mret, Run_ret, call.
  destruct (negb (isValid pv) && ce); simpl;
    destruct (_ && _ && _); simpl;
    rewrite ?elem_of_cons, ?elem_of_nil; tauto.
Qed.

(** With a non-empty coupon the mainnet check is not among them. *)
Lemma pipelineChecks_coupon pv id c address ce me :
  c ≠ "" ->
  checksOf pv id (Some c) address ce me =
    if negb (isValid pv) && ce
    then ([CheckCoupon id (Some c)], checkCouponPipeline pv id (Some c))
    else ([], pv).
Proof.
  intros Hne. unfold pipelineChecks, mbind, Run_bind, mret, Run_ret, call.
  simpl. destruct (String.eqb_spec c ""); [done|]. simpl.
  destruct (negb (isValid pv) && ce); simpl; by rewrite andb_false_r.
Qed.

(** With neither gate enabled no check is run. *)
Lemma pipelineChecks_no_gate drip id coupon address :
  checksOf (initialValidity drip) id coupon address false false
  = ([], initialValidity drip).
Proof.
  unfold pipelineChecks, mbind, Run_bind, mret, Run_ret, call. simpl.
  by rewrite andb_false_r.
Qed.

(** The handler on a request whose parameters are valid. *)
Lemma sendTokenHandler_valid req evm :
  getEvm evms (st_chain req) = Some evm ->
  invalidParams (Some evm) (st_erc20 req)
                (getErc20Instance (Some evm) (st_erc20 req)) = false ->
  let erc20Instance := getErc20Instance (Some evm) (st_erc20 req) in
  let resolved := resolvedConfig evm erc20Instance in
  let run := checksOf (initialValidity (DRIP_AMOUNT resolved)) (ID resolved)
               (st_couponId req) (st_address req)
               (couponEnabled evm erc20Instance)
               (mainnetCheckEnabled evm erc20Instance) in
  handler req =
    app run.1
      (if (mainnetCheckEnabled evm erc20Instance || couponEnabled evm erc20Instance)
          && negb (isValid run.2)
       then [Respond 400
               (Message (concatUndef (errorMessage run.2)
                           (pipelineFailureMessage MAINNET_BALANCE_CHECK_RPC
                              (couponEnabled evm erc20Instance))))]
       else dispatch evm (st_address req) (st_erc20 req)
                     (Some (dripAmount run.2))
                     (sendTokenCallback run.2 (st_couponId req))).
Proof.
  intros Hevm Hvalid erc20Instance resolved run.
  unfold sendTokenHandler. rewrite Hevm, Hvalid.
  assert (Hid : default (ID (config evm)) (ID <$> erc20Instance) = ID resolved).
  { unfold resolved, resolvedConfig. by destruct erc20Instance. }
  assert (Hdrip : default (DRIP_AMOUNT (config evm)) (DRIP_AMOUNT <$> erc20Instance)
                  = DRIP_AMOUNT resolved).
  { unfold resolved, resolvedConfig. by destruct erc20Instance. }
  fold erc20Instance. rewrite Hid, Hdrip. fold run.
  by destruct run.
Qed.

(** A request whose parameters are not valid is answered 400 at once. *)
Lemma sendTokenHandler_invalid req :
  (forall evm, getEvm evms (st_chain req) = Some evm ->
     invalidParams (Some evm) (st_erc20 req)
                   (getErc20Instance (Some evm) (st_erc20 req)) = true) ->
  handler req = [Respond 400 (Message "Invalid parameters passed!")].
Proof.
  intros H. unfold sendTokenHandler.
  destruct (getEvm evms (st_chain req)) as [evm|]; [|done].
  by rewrite (H evm).
Qed.

(** C4. A request with valid parameters whose resolved configuration has
    neither gate enabled is admitted: no check is run, no rejection is sent,
    and the transfer is started with the [DRIP_AMOUNT] of the resolved
    configuration, the token's if an erc20 was resolved and the chain's
    otherwise; the answer is the one the transfer reports. *)
Theorem sendToken_no_gate req evm :
  getEvm evms (st_chain req) = Some evm ->
  invalidParams (Some evm) (st_erc20 req)
                (getErc20Instance (Some evm) (st_erc20 req)) = false ->
  let erc20Instance := getErc20Instance (Some evm) (st_erc20 req) in
  mainnetCheckEnabled evm erc20Instance = false ->
  couponEnabled evm erc20Instance = false ->
  let amount := DRIP_AMOUNT (resolvedConfig evm erc20Instance) in
  handler req =
    SendToken (st_address req) (st_erc20 req) (Some amount) ::
    match sendToken (instance evm) (st_address req) (st_erc20 req) (Some amount) with
    | Replied data => [Respond (status data) (MessageTx (message data) (txHash data))]
    | Silent | Thrown _ => []
    end /\
  (forall t, erc20Instance = Some t -> amount = DRIP_AMOUNT t) /\
  (erc20Instance = None -> amount = DRIP_AMOUNT (config evm)).
Proof.
  intros Hevm Hvalid erc20Instance Hm Hc amount.
  split; [|split].
  - rewrite (sendTokenHandler_valid req evm Hevm Hvalid). fold erc20Instance.
    rewrite Hm, Hc, pipelineChecks_no_gate. simpl. unfold dispatch. fold amount.
    by destruct (sendToken _ _ _ _).
  - unfold amount, resolvedConfig. by intros t ->.
  - unfold amount, resolvedConfig. by intros ->.
Qed.

(** C3, as amended. When the request carries a non-empty coupon the mainnet
    balance check is never run; if the coupon check is enabled and leaves
    the request invalid, the request is rejected with 400 after the coupon
    check alone. *)
Theorem sendToken_coupon_no_mainnet req c :
  st_couponId req = Some c -> c ≠ "" ->
  (forall rpc address, CheckMainnetBalance rpc address ∉ handler req) /\
  (forall evm,
     getEvm evms (st_chain req) = Some evm ->
     invalidParams (Some evm) (st_erc20 req)
                   (getErc20Instance (Some evm) (st_erc20 req)) = false ->
     let resolved :=
       resolvedConfig evm (getErc20Instance (Some evm) (st_erc20 req)) in
     let pv := checkCouponPipeline (initialValidity (DRIP_AMOUNT resolved))
                                   (ID resolved) (Some c) in
     couponEnabled evm (getErc20Instance (Some evm) (st_erc20 req)) = true ->
     isValid pv = false ->
     handler req =
       [ CheckCoupon (ID resolved) (Some c);
         Respond 400 (Message (concatUndef (errorMessage pv)
                       (pipelineFailureMessage MAINNET_BALANCE_CHECK_RPC true))) ]).
Proof.
  intros Hcoupon Hne. split.
  - intros rpc address.
    destruct (getEvm evms (st_chain req)) as [evm|] eqn:Hevm.
    2:{ rewrite sendTokenHandler_invalid by (intros ??; congruence).
        by intros [=]%list_elem_of_singleton. }
    destruct (invalidParams (Some evm) (st_erc20 req)
                (getErc20Instance (Some evm) (st_erc20 req))) eqn:Hvalid.
    { rewrite sendTokenHandler_invalid by (intros ? [= <-]%(eq_trans (eq_sym Hevm)); done).
      by intros [=]%list_elem_of_singleton. }
    rewrite (sendTokenHandler_valid req evm Hevm Hvalid).
    rewrite Hcoupon, pipelineChecks_coupon by done.
    unfold dispatch, sendTokenCallback.
    destruct (negb _ && couponEnabled _ _); simpl;
      repeat (case_match; simpl);
      rewrite ?elem_of_cons, ?elem_of_nil; intuition discriminate.
  - intros evm Hevm Hvalid resolved pv Hce Hinvalid.
    rewrite (sendTokenHandler_valid req evm Hevm Hvalid).
    rewrite Hcoupon, pipelineChecks_coupon by done.
    rewrite Hce. subst resolved pv.
    change (negb (isValid (initialValidity ?d)) && true) with true.
    cbv iota. cbn [fst snd]. rewrite Hinvalid.
    by rewrite orb_true_r.
Qed.


End SendFacts.

Lemma sendToken_no_gate_witness :
  sendTokenHandler true Sample.rpc (Sample.evms Sample.working)
    Sample.couponRejected Sample.mainnetSufficient Sample.failureMessage
    Sample.tokenRequest
  = [ SendToken (Some "0xabc") (Some "USDT") (Some 5%Q);
      Respond 200 (MessageTx "Transaction successful" (Some "0xa1")) ].
Proof.
  apply (proj1 (sendToken_no_gate true Sample.rpc (Sample.evms Sample.working)
                  Sample.couponRejected Sample.mainnetSufficient
                  Sample.failureMessage Sample.tokenRequest
                  {| config := Sample.kite; instance := Sample.working |}
                  ltac:(vm_compute; reflexivity) ltac:(vm_compute; reflexivity)
                  ltac:(vm_compute; reflexivity) ltac:(vm_compute; reflexivity))).
Defined.

Lemma sendToken_coupon_no_mainnet_witness :
  CheckMainnetBalance Sample.rpc (Some "0xabc")
  ∉ sendTokenHandler true Sample.rpc (Sample.evms Sample.working)
      Sample.couponRejected Sample.mainnetSufficient Sample.failureMessage
      (Sample.nativeRequest (Some "c0ffee")).
Proof.
  apply (proj1 (sendToken_coupon_no_mainnet true Sample.rpc
                  (Sample.evms Sample.working) Sample.couponRejected
                  Sample.mainnetSufficient Sample.failureMessage
                  (Sample.nativeRequest (Some "c0ffee")) "c0ffee"
                  eq_refl ltac:(discriminate))).
Defined.

(** C3, as stated, fails: the request carries a coupon value, the empty
    string, which the coupon check rejects; the mainnet balance check is run
    all the same, and as it passes the request is served. *)
Lemma sendToken_empty_coupon_runs_mainnet :
  sendTokenHandler true Sample.rpc (Sample.evms Sample.working)
    Sample.couponRejected Sample.mainnetSufficient Sample.failureMessage
    (Sample.nativeRequest (Some ""))
  = [ CheckCoupon "KITE" (Some "");
      CheckMainnetBalance Sample.rpc (Some "0xabc");
      SendToken (Some "0xabc") None (Some 2%Q);
      Respond 200 (MessageTx "Transaction successful" (Some "0xa1")) ].
Proof. vm_compute; reflexivity. Qed.



(** * Further properties of the server *)

Local Open Scope list_scope.

(** ** Start-up *)

Lemma getChainByID_fold chains id acc :
  fold_left (fun reply chain => if idIs chain id then Some chain else reply)
            chains acc
  = match last (filter (fun c => idIs c id = true) chains) with
    | Some c => Some c
    | None => acc
    end.
Proof.
  revert acc. induction chains as [|c cs IH]; intros acc; simpl; [done|].
  rewrite IH, filter_cons.
  destruct (decide (idIs c id = true)) as [Hc|Hc].
  - rewrite Hc, last_cons. by destruct (last _).
  - apply not_true_is_false in Hc. by rewrite Hc.
Qed.

(** X1. [getChainByID] returns the last chain of the list whose [ID] is the
    identifier asked for, and nothing when no chain has it. *)
Theorem getChainByID_last (chains : list (gmap string JsValue)) (id : string) :
  getChainByID chains id = last (filter (fun c => idIs c id = true) chains) /\
  (getChainByID chains id = None <-> Forall (fun c => idIs c id = false) chains).
Proof.
  assert (Heq : getChainByID chains id
                = last (filter (fun c => idIs c id = true) chains)).
  { unfold getChainByID. rewrite getChainByID_fold. by destruct (last _). }
  split; [done|]. rewrite Heq, last_None. split.
  - intros Hnil. apply Forall_forall. intros c Hc.
    destruct (idIs c id) eqn:E; [|done].
    assert (Hin : c ∈ filter (fun c => idIs c id = true) chains)
      by (by apply list_elem_of_filter).
    rewrite Hnil in Hin. by apply elem_of_nil in Hin.
  - intros Hall. clear Heq. induction Hall as [|c cs Hc _ IH]; [done|].
    rewrite filter_cons. destruct (decide (idIs c id = true)); [congruence|exact IH].
Qed.

(** X2. [populateConfig] never removes a key of the child, adds keys of the
    parent only, and leaves alone every key the parent does not have. *)
Theorem populateConfig_keys (child parent : gmap string JsValue) :
  dom child ⊆ dom (populateConfig child (Some parent)) /\
  dom (populateConfig child (Some parent)) ⊆ dom child ∪ dom parent /\
  forall key, parent !! key = None ->
              populateConfig child (Some parent) !! key = child !! key.
Proof.
  split; [|split].
  - intros key [v Hv]%elem_of_dom. apply elem_of_dom.
    rewrite populateConfig_lookup. unfold populated.
    destruct (_ && _); [|eauto]. destruct (parent !! key); eauto.
  - intros key [v Hv]%elem_of_dom. apply elem_of_union.
    rewrite populateConfig_lookup in Hv. unfold populated in Hv.
    rewrite !elem_of_dom.
    destruct (_ && _); [|eauto]. destruct (parent !! key) eqn:Hp; eauto.
  - intros key Hp. rewrite populateConfig_lookup. unfold populated.
    rewrite Hp. by destruct (_ && _).
Qed.

Lemma populateConfig_keys_witness :
  populateConfig Sample.usdtObject (Some Sample.kiteObject) !! "HOSTID"
  = Some (JStr "KITE").
Proof.
  rewrite (proj2 (proj2 (populateConfig_keys Sample.usdtObject Sample.kiteObject))).
  - vm_compute; reflexivity.
  - vm_compute; reflexivity.
Defined.

Lemma populated_again child parent key :
  populated (populateConfig child (Some parent)) parent key
  = populated child parent key.
Proof.
  unfold populated at 1.
  assert (Hget : get (populateConfig child (Some parent)) key
                 = default JUndefined (populated child parent key)).
  { unfold get. by rewrite populateConfig_lookup. }
  rewrite Hget, populateConfig_lookup.
  unfold populated, get.
  destruct (bool_decide (key ∈ separateConfigFields)); simpl; [done|].
  destruct (truthy (default JUndefined (child !! key))) eqn:Hc; simpl.
  - by rewrite Hc.
  - destruct (parent !! key) as [pv|] eqn:Hp; simpl.
    + by destruct (truthy pv).
    + by rewrite Hc.
Qed.

(** X3. Populating twice from the same parent is populating once. *)
Theorem populateConfig_idempotent (child parent : gmap string JsValue) :
  populateConfig (populateConfig child (Some parent)) (Some parent)
  = populateConfig child (Some parent).
Proof.
  apply map_eq. intros key.
  rewrite populateConfig_lookup, populated_again.
  symmetry. apply populateConfig_lookup.
Qed.

(** X4. A child that holds a truthy value for every key of the parent,
    the separate fields apart, comes back unchanged. *)
Theorem populateConfig_complete_child (child parent : gmap string JsValue) :
  (forall key, is_Some (parent !! key) -> key ∉ separateConfigFields ->
               truthy (get child key) = true) ->
  populateConfig child (Some parent) = child.
Proof.
  intros Hfull. apply map_eq. intros key. rewrite populateConfig_lookup.
  unfold populated.
  destruct (decide (key ∈ separateConfigFields)) as [Hs|Hs].
  - by rewrite bool_decide_eq_true_2.
  - rewrite bool_decide_eq_false_2 by done. simpl.
    destruct (truthy (get child key)) eqn:Ht; simpl; [done|].
    destruct (parent !! key) eqn:Hp; [|done].
    rewrite Hfull in Ht; [done|eauto|done].
Qed.

Lemma populateConfig_complete_child_witness :
  populateConfig {[ "ID" := JStr "USDT"; "DECIMALS" := JNum 6 ]}
                 (Some {[ "ID" := JStr "KITE"; "COUPON_REQUIRED" := JBool true ]})
  = {[ "ID" := JStr "USDT"; "DECIMALS" := JNum 6 ]}.
Proof.
  apply populateConfig_complete_child. intros key [v Hv] Hsep.
  destruct (decide (key = "ID")) as [->|Hid]; [vm_compute; reflexivity|].
  rewrite lookup_insert_ne in Hv by done.
  destruct (decide (key = "COUPON_REQUIRED")) as [->|Hc].
  - exfalso. apply Hsep. unfold separateConfigFields. apply elem_of_cons. by left.
  - by rewrite lookup_singleton_ne in Hv.
Defined.

Lemma populateConfig_option_truthy_kept child parent key :
  truthy (get child key) = true ->
  get (populateConfig child parent) key = get child key.
Proof.
  intros Ht. destruct parent as [parent|].
  - unfold get at 1. rewrite populateConfig_lookup. unfold populated.
    rewrite Ht. by rewrite andb_false_r.
  - by rewrite populateConfig_no_parent.
Qed.

(** X5. The start-up merge never changes a token's [HOSTID], and never
    changes its [ID] when that is truthy. *)
Theorem mergeToken_identity (evmchains : list (gmap string JsValue))
    (token : gmap string JsValue) :
  get (mergeToken evmchains token) "HOSTID" = get token "HOSTID" /\
  (truthy (get token "ID") = true ->
   get (mergeToken evmchains token) "ID" = get token "ID").
Proof.
  unfold mergeToken.
  destruct (get token "HOSTID") as [| |b|q|h|r] eqn:HH; try (by rewrite HH).
  destruct (truthy (JStr h)) eqn:Ht; [|by rewrite HH].
  split.
  - rewrite populateConfig_option_truthy_kept; rewrite HH; done.
  - intros Hid. by apply populateConfig_option_truthy_kept.
Qed.

Lemma mergeToken_identity_witness :
  get (mergeToken [Sample.kiteObject] Sample.usdtObject) "ID" = JStr "USDT".
Proof.
  rewrite (proj2 (mergeToken_identity [Sample.kiteObject] Sample.usdtObject)).
  - vm_compute; reflexivity.
  - vm_compute; reflexivity.
Defined.

(** X6. Running the start-up merge on a token a second time changes
    nothing. *)
Theorem mergeToken_idempotent (evmchains : list (gmap string JsValue))
    (token : gmap string JsValue) :
  mergeToken evmchains (mergeToken evmchains token) = mergeToken evmchains token.
Proof.
  assert (Hhost : get (mergeToken evmchains token) "HOSTID" = get token "HOSTID").
  { unfold mergeToken.
    destruct (get token "HOSTID") as [| |b|q|h|r] eqn:HH; try (by rewrite HH).
    destruct (truthy (JStr h)) eqn:Ht; [|by rewrite HH].
    rewrite populateConfig_option_truthy_kept; rewrite HH; done. }
  unfold mergeToken at 1. rewrite Hhost. unfold mergeToken.
  destruct (get token "HOSTID") as [| |b|q|h|r]; try done.
  destruct (truthy (JStr h)); [|done].
  destruct (getChainByID evmchains h) as [host|].
  - apply map_eq. intros key.
    by rewrite populateConfig_lookup, populated_again, populateConfig_lookup.
  - by rewrite !populateConfig_no_parent.
Qed.

Lemma setupEvms_fold newEVM chains id (evms : gmap string EVMInstanceAndConfig) :
  fold_left
    (fun evms chain =>
       <[ID chain := {| config := chain; instance := newEVM chain |}]> evms)
    chains evms !! id
  = match last (filter (fun c => ID c = id) chains) with
    | Some c => Some {| config := c; instance := newEVM c |}
    | None => evms !! id
    end.
Proof.
  revert evms. induction chains as [|c cs IH]; intros evms; simpl; [done|].
  rewrite IH, filter_cons.
  destruct (decide (ID c = id)) as [Hc|Hc].
  - rewrite last_cons. destruct (last _); [done|].
    by rewrite Hc, lookup_insert_eq.
  - destruct (last _); [done|]. by rewrite lookup_insert_ne.
Qed.

(** X7. In the table filled at start-up a chain identifier leads to the
    last configured chain of that identifier, with the instance made for it;
    an identifier no chain has leads to nothing. *)
Theorem setupEvms_lookup (newEVM : ChainType -> EVM) (chains : list ChainType)
    (id : string) :
  setupEvms newEVM chains !! id
  = (fun c => {| config := c; instance := newEVM c |})
      <$> last (filter (fun c => ID c = id) chains) /\
  (setupEvms newEVM chains !! id = None <-> Forall (fun c => ID c ≠ id) chains).
Proof.
  assert (Heq : setupEvms newEVM chains !! id
                = (fun c => {| config := c; instance := newEVM c |})
                    <$> last (filter (fun c => ID c = id) chains)).
  { unfold setupEvms. rewrite setupEvms_fold, lookup_empty.
    by destruct (last _). }
  split; [done|]. rewrite Heq, fmap_None, last_None. clear Heq. split.
  - intros Hnil. apply Forall_forall. intros c Hc Hid.
    assert (Hin : c ∈ filter (fun c => ID c = id) chains)
      by (by apply list_elem_of_filter).
    rewrite Hnil in Hin. by apply elem_of_nil in Hin.
  - intros Hall. induction Hall as [|c cs Hc _ IH]; [done|].
    rewrite filter_cons. by destruct (decide (ID c = id)).
Qed.

(** X8. [/getChainConfigs] serves one entry per configured chain and
    token, in order: the chains as configured, then each token as the
    start-up merge left it, its separate fields being the token's own. *)
Theorem getChainConfigs_entries (evmchains erc20tokens : list (gmap string JsValue)) :
  length (getChainConfigs evmchains erc20tokens)
  = (length evmchains + length erc20tokens)%nat /\
  (forall i chain, evmchains !! i = Some chain ->
     getChainConfigs evmchains erc20tokens !! i = Some chain) /\
  (forall j token, erc20tokens !! j = Some token ->
     exists served,
       getChainConfigs evmchains erc20tokens !! (length evmchains + j)%nat
       = Some served /\
       served = mergeToken evmchains token /\
       forall key, key ∈ separateConfigFields -> served !! key = token !! key).
Proof.
  unfold getChainConfigs, mergedTokens. split; [|split].
  - by rewrite length_app, length_fmap.
  - intros i chain Hi. by apply lookup_app_l_Some.
  - intros j token Hj. exists (mergeToken evmchains token).
    split; [|split; [done|]].
    + rewrite lookup_app_r by lia.
      replace (length evmchains + j - length evmchains)%nat with j by lia.
      by rewrite list_lookup_fmap, Hj.
    + intros key Hkey. by apply mergeToken_separate.
Qed.

Lemma getChainConfigs_entries_witness :
  getChainConfigs [Sample.kiteObject] [Sample.usdtObject] !! 0%nat
  = Some Sample.kiteObject.
Proof.
  apply (proj1 (proj2 (getChainConfigs_entries [Sample.kiteObject]
                         [Sample.usdtObject]))).
  reflexivity.
Defined.

(** X9. The fallback route looks at the token only when a subnet is given:
    without a non-empty subnet the redirect goes to the bare address whatever
    [erc20] is, and when the native client is served the query is not looked
    at. *)
Theorem fallbackRoute_token_needs_subnet (dirname : string)
    (subnet erc20 : option string) :
  (truthyStr subnet = false ->
   fallbackRoute false dirname subnet erc20
   = Redirect "https://core.app/tools/testnet-faucet") /\
  (forall s, subnet = Some s -> s ≠ "" ->
     exists query,
       fallbackRoute false dirname subnet erc20
       = Redirect ("https://core.app/tools/testnet-faucet?subnet=" +:+ s +:+ query)
       /\ (truthyStr erc20 = false -> query = "")
       /\ (forall t, erc20 = Some t -> t ≠ "" -> query = "&token=" +:+ t)) /\
  fallbackRoute true dirname subnet erc20
  = SendFile [dirname; "client"; "index.html"].
Proof.
  unfold fallbackRoute. split; [|split; [|done]].
  - by intros ->.
  - intros s -> Hs. simpl. destruct (String.eqb_spec s ""); [done|]. simpl.
    exists (if truthyStr erc20 then "&token=" +:+ default "" erc20 else "").
    split; [done|]. split.
    + by intros ->.
    + intros t -> Ht. simpl. by destruct (String.eqb_spec t "").
Qed.

Lemma fallbackRoute_token_needs_subnet_witness :
  fallbackRoute false "/srv" (Some "") (Some "USDT")
  = Redirect "https://core.app/tools/testnet-faucet".
Proof.
  apply (proj1 (fallbackRoute_token_needs_subnet "/srv" (Some "") (Some "USDT"))).
  reflexivity.
Defined.

(** ** Traces of the handlers *)

Lemma answersLast_response calls code body :
  Forall (fun e => isRespond e = false) calls ->
  answersLast (calls ++ [Respond code body]).
Proof. intros H. exists calls. split; [done|]. right. eauto. Qed.

Lemma answersLast_silent calls :
  Forall (fun e => isRespond e = false) calls -> answersLast calls.
Proof. intros H. exists calls. split; [done|]. by left. Qed.

Lemma answersLast_cons e trace :
  isRespond e = false -> answersLast trace -> answersLast (e :: trace).
Proof.
  intros He (calls & Hcalls & Htrace). exists (e :: calls).
  split; [by constructor|].
  destruct Htrace as [-> | (code & body & ->)]; [by left|right; eauto].
Qed.

Lemma answersLast_app calls trace :
  Forall (fun e => isRespond e = false) calls -> answersLast trace ->
  answersLast (calls ++ trace).
Proof.
  intros Hcalls Htrace. induction Hcalls as [|e calls He _ IH]; [done|].
  by apply answersLast_cons.
Qed.

Lemma batchSettle_answersLast (nativeLeg erc20Leg : SendOutcome) :
  batchSettle nativeLeg erc20Leg = [] \/
  exists code body, batchSettle nativeLeg erc20Leg = [Respond code body].
Proof.
  unfold batchSettle.
  destruct nativeLeg as [n| |m], erc20Leg as [e| |m']; eauto.
  repeat case_match; eauto.
Qed.

Section TraceFacts.

Variable IS_ENABLED : bool.
Variable MAINNET_BALANCE_CHECK_RPC : string.
Variable NEO_COUPON_ID : option string.
Variable evms : gmap string EVMInstanceAndConfig.
Variable checkCouponPipeline :
  PipelineCheckValidity -> string -> option string -> PipelineCheckValidity.
Variable checkMainnetBalancePipeline :
  PipelineCheckValidity -> string -> option string -> PipelineCheckValidity.
Variable pipelineFailureMessage : string -> bool -> string.

Local Abbreviation send :=
  (sendTokenHandler IS_ENABLED MAINNET_BALANCE_CHECK_RPC evms checkCouponPipeline
                    checkMainnetBalancePipeline pipelineFailureMessage).
Local Abbreviation claim := (claimTokenHandler NEO_COUPON_ID evms).
Local Abbreviation batch := (batchClaimTokenHandler NEO_COUPON_ID evms).
Local Abbreviation checksOf :=
  (pipelineChecks MAINNET_BALANCE_CHECK_RPC checkCouponPipeline
                  checkMainnetBalancePipeline).
Local Abbreviation couponEnabled := (couponCheckEnabled IS_ENABLED).

Lemma pipelineChecks_only_checks pv id coupon address ce me :
  Forall (fun e => isCheck e = true) (checksOf pv id coupon address ce me).1.
Proof.
  apply Forall_forall. intros e He.
  by apply pipelineChecks_effects in He as [->| ->].
Qed.

Lemma checks_not_respond (checks : list Effect) :
  Forall (fun e => isCheck e = true) checks ->
  Forall (fun e => isRespond e = false) checks.
Proof. intros H. eapply Forall_impl; [exact H|]. by intros []. Qed.

Lemma sendTokenHandler_answersLast req : answersLast (send req).
Proof.
  destruct (getEvm evms (st_chain req)) as [evm|] eqn:Hevm.
  2:{ rewrite sendTokenHandler_invalid by (intros ??; congruence).
      by apply (answersLast_response []). }
  destruct (invalidParams (Some evm) (st_erc20 req)
              (getErc20Instance (Some evm) (st_erc20 req))) eqn:Hvalid.
  { rewrite sendTokenHandler_invalid
      by (intros ? [= <-]%(eq_trans (eq_sym Hevm)); done).
    by apply (answersLast_response []). }
  rewrite (sendTokenHandler_valid _ _ _ _ _ _ req evm Hevm Hvalid).
  set (run := pipelineChecks _ _ _ _ _ _ _ _ _).
  assert (Hchecks : Forall (fun e => isRespond e = false) run.1)
    by apply checks_not_respond, pipelineChecks_only_checks.
  apply answersLast_app; [done|].
  destruct (_ && negb _); [by apply (answersLast_response [])|].
  unfold dispatch, sendTokenCallback.
  apply answersLast_cons; [done|].
  destruct (sendToken _ _ _ _) as [data| |m].
  - destruct (_ && _ && _).
    + apply answersLast_cons; [done|]. by apply (answersLast_response []).
    + by apply (answersLast_response []).
  - by apply answersLast_silent.
  - by apply answersLast_silent.
Qed.

(** X10. No handler answers a request twice, and the answer is the last
    thing a handler does: a trace of [/sendToken], [/claimToken],
    [/batchClaimToken] or [/getBalance] is a list of collaborator calls
    followed by at most one response. *)
Theorem handlers_answer_last :
  (forall req, answersLast (send req)) /\
  (forall req, answersLast (claim req)) /\
  (forall req, answersLast (batch req)) /\
  (forall q, answersLast (getBalanceHandler evms q)).
Proof.
  split; [exact sendTokenHandler_answersLast|]. split; [|split].
  - intros req. unfold claimTokenHandler.
    destruct (_ || _); [by apply (answersLast_response [])|].
    destruct (negb _); [by apply (answersLast_response [])|].
    destruct (getEvm _ _) as [evm|]; [|by apply (answersLast_response [])].
    destruct (invalidParams _ _ _); [by apply (answersLast_response [])|].
    unfold dispatch, claimTokenCallback.
    destruct (sendToken _ _ _ _).
    + apply (answersLast_response [_]). by repeat constructor.
    + apply answersLast_silent. by repeat constructor.
    + apply answersLast_silent. by repeat constructor.
  - intros req. unfold batchClaimTokenHandler.
    destruct (_ || _); [by apply (answersLast_response [])|].
    destruct (negb _); [by apply (answersLast_response [])|].
    destruct (getEvm _ _) as [evm|]; [|by apply (answersLast_response [])].
    destruct (invalidParams _ _ _); [by apply (answersLast_response [])|].
    destruct (batchSettle_answersLast
                (sendToken (instance evm) (bt_address req) None (bt_kiteAmount req))
                (sendToken (instance evm) (bt_address req)
                   (Some (default "USDT" (bt_erc20 req))) (bt_erc20Amount req)))
      as [-> | (code & body & ->)].
    + apply answersLast_silent. by repeat constructor.
    + apply (answersLast_response [_; _]). by repeat constructor.
  - intros q. by apply (answersLast_response []).
Qed.

End TraceFacts.

(** ** Admission in [/sendToken] *)

Section AdmissionFacts.

Variable IS_ENABLED : bool.
Variable MAINNET_BALANCE_CHECK_RPC : string.
Variable evms : gmap string EVMInstanceAndConfig.
Variable checkCouponPipeline :
  PipelineCheckValidity -> string -> option string -> PipelineCheckValidity.
Variable checkMainnetBalancePipeline :
  PipelineCheckValidity -> string -> option string -> PipelineCheckValidity.
Variable pipelineFailureMessage : string -> bool -> string.

Local Abbreviation send :=
  (sendTokenHandler IS_ENABLED MAINNET_BALANCE_CHECK_RPC evms checkCouponPipeline
                    checkMainnetBalancePipeline pipelineFailureMessage).
Local Abbreviation checksOf :=
  (pipelineChecks MAINNET_BALANCE_CHECK_RPC checkCouponPipeline
                  checkMainnetBalancePipeline).
Local Abbreviation couponEnabled := (couponCheckEnabled IS_ENABLED).

(** X11. A [/sendToken] request whose chain is missing or unknown, or whose
    non-empty erc20 names no contract of the chain, is answered 400 and
    nothing else is done: no check, no transfer. *)
Theorem sendToken_invalid_parameters req :
  getEvm evms (st_chain req) = None \/
  (exists id evm, st_erc20 req = Some id /\ id ≠ "" /\
                  getEvm evms (st_chain req) = Some evm /\
                  contracts (instance evm) !! id = None) ->
  send req = [Respond 400 (Message "Invalid parameters passed!")].
Proof.
  intros [Hnone | (id & evm & Hid & Hne & Hevm & Hnoc)];
    apply sendTokenHandler_invalid.
  - intros evm Hevm. congruence.
  - intros evm' Hevm'. assert (evm' = evm) as -> by congruence.
    unfold invalidParams, getErc20Instance. rewrite Hid. simpl. rewrite Hnoc.
    by destruct (String.eqb_spec id "").
Qed.

(** X12. When a gate is enabled and the checks leave the request invalid,
    the request is answered 400 after the checks and no transfer is started
    and nothing is reclaimed; the message is the checks' error message
    followed by the failure message. *)
Theorem sendToken_unsatisfied_blocks req evm :
  getEvm evms (st_chain req) = Some evm ->
  invalidParams (Some evm) (st_erc20 req)
                (getErc20Instance (Some evm) (st_erc20 req)) = false ->
  let erc20Instance := getErc20Instance (Some evm) (st_erc20 req) in
  let resolved := resolvedConfig evm erc20Instance in
  let run := checksOf (initialValidity (DRIP_AMOUNT resolved)) (ID resolved)
               (st_couponId req) (st_address req)
               (couponEnabled evm erc20Instance)
               (mainnetCheckEnabled evm erc20Instance) in
  mainnetCheckEnabled evm erc20Instance || couponEnabled evm erc20Instance = true ->
  isValid run.2 = false ->
  exists checks,
    Forall (fun e => isCheck e = true) checks /\
    send req =
      checks ++
      [Respond 400
         (Message (concatUndef (errorMessage run.2)
                     (pipelineFailureMessage MAINNET_BALANCE_CHECK_RPC
                        (couponEnabled evm erc20Instance))))].
Proof.
  intros Hevm Hvalid erc20Instance resolved run Hgate Hinvalid.
  exists run.1. split.
  - apply Forall_forall. intros e He.
    by apply pipelineChecks_effects in He as [->| ->].
  - rewrite (sendTokenHandler_valid _ _ _ _ _ _ req evm Hevm Hvalid).
    fold erc20Instance. fold resolved. fold run.
    by rewrite Hgate, Hinvalid.
Qed.

(** X13. When the coupon gate is enabled and the coupon check validates the
    request, the mainnet check is not run, whatever the mainnet gate is, and
    the transfer is started with the amount the coupon check left in the
    validity record. *)
Theorem sendToken_coupon_passes req evm :
  getEvm evms (st_chain req) = Some evm ->
  invalidParams (Some evm) (st_erc20 req)
                (getErc20Instance (Some evm) (st_erc20 req)) = false ->
  let erc20Instance := getErc20Instance (Some evm) (st_erc20 req) in
  let resolved := resolvedConfig evm erc20Instance in
  let pv := checkCouponPipeline (initialValidity (DRIP_AMOUNT resolved))
                                (ID resolved) (st_couponId req) in
  couponEnabled evm erc20Instance = true ->
  isValid pv = true ->
  send req =
    CheckCoupon (ID resolved) (st_couponId req) ::
    dispatch evm (st_address req) (st_erc20 req) (Some (dripAmount pv))
             (sendTokenCallback pv (st_couponId req)).
Proof.
  intros Hevm Hvalid erc20Instance resolved pv Hce Hpv.
  rewrite (sendTokenHandler_valid _ _ _ _ _ _ req evm Hevm Hvalid).
  fold erc20Instance. fold resolved. rewrite Hce.
  unfold pipelineChecks, mbind, Run_bind, mret, Run_ret, call.
  change (negb (isValid (initialValidity ?d)) && true) with true. cbv iota.
  fold pv. rewrite Hpv. simpl. fold pv. by rewrite Hpv, andb_false_r.
Qed.

(** X14. On a configuration with the mainnet gate alone, a request that
    carries a non-empty coupon is always rejected, without any check being
    run; as no check has set an error message, the message starts with
    "undefined". *)
Theorem sendToken_coupon_on_mainnet_gate req evm c :
  getEvm evms (st_chain req) = Some evm ->
  invalidParams (Some evm) (st_erc20 req)
                (getErc20Instance (Some evm) (st_erc20 req)) = false ->
  let erc20Instance := getErc20Instance (Some evm) (st_erc20 req) in
  couponEnabled evm erc20Instance = false ->
  mainnetCheckEnabled evm erc20Instance = true ->
  st_couponId req = Some c -> c ≠ "" ->
  send req =
    [Respond 400
       (Message ("undefined" +:+
                 pipelineFailureMessage MAINNET_BALANCE_CHECK_RPC false))].
Proof.
  intros Hevm Hvalid erc20Instance Hce Hme Hcoupon Hne.
  rewrite (sendTokenHandler_valid _ _ _ _ _ _ req evm Hevm Hvalid).
  fold erc20Instance. rewrite Hce, Hme, Hcoupon.
  by rewrite pipelineChecks_coupon.
Qed.

(** X15. Without a coupon (none, or the empty string) and with the mainnet
    gate enabled, the mainnet check is run, after the coupon check when the
    coupon gate is enabled and has not validated the request, on the validity
    record that check left; its verdict decides between the transfer, with
    the amount it left, and the rejection. *)
Theorem sendToken_falls_back_to_mainnet req evm :
  getEvm evms (st_chain req) = Some evm ->
  invalidParams (Some evm) (st_erc20 req)
                (getErc20Instance (Some evm) (st_erc20 req)) = false ->
  let erc20Instance := getErc20Instance (Some evm) (st_erc20 req) in
  let resolved := resolvedConfig evm erc20Instance in
  let ce := couponEnabled evm erc20Instance in
  let pv0 := initialValidity (DRIP_AMOUNT resolved) in
  let pv1 := if ce then checkCouponPipeline pv0 (ID resolved) (st_couponId req)
             else pv0 in
  let pv2 := checkMainnetBalancePipeline pv1 MAINNET_BALANCE_CHECK_RPC
                                         (st_address req) in
  truthyStr (st_couponId req) = false ->
  mainnetCheckEnabled evm erc20Instance = true ->
  isValid pv1 = false ->
  send req =
    (if ce then [CheckCoupon (ID resolved) (st_couponId req)] else []) ++
    CheckMainnetBalance MAINNET_BALANCE_CHECK_RPC (st_address req) ::
    (if isValid pv2
     then dispatch evm (st_address req) (st_erc20 req) (Some (dripAmount pv2))
                   (sendTokenCallback pv2 (st_couponId req))
     else [Respond 400
             (Message (concatUndef (errorMessage pv2)
                         (pipelineFailureMessage MAINNET_BALANCE_CHECK_RPC ce)))]).
Proof.
  intros Hevm Hvalid erc20Instance resolved ce pv0 pv1 pv2 Hcoupon Hme Hpv1.
  rewrite (sendTokenHandler_valid _ _ _ _ _ _ req evm Hevm Hvalid).
  fold erc20Instance. fold resolved. fold ce. fold pv0. rewrite Hme.
  unfold pipelineChecks, mbind, Run_bind, mret, Run_ret, call.
  subst pv2 pv1. change (negb (isValid pv0)) with true.
  destruct ce; cbn [andb fst snd app orb] in *;
    rewrite Hpv1, Hcoupon; cbn [andb negb fst snd app];
    by destruct (isValid (checkMainnetBalancePipeline _ _ _)).
Qed.

(** X16. A request that is admitted is answered with what the transfer
    reports, status, message and hash as they are; when the transfer never
    reports, or its call throws, the request is not answered at all. *)
Theorem sendToken_relays_report req evm :
  getEvm evms (st_chain req) = Some evm ->
  invalidParams (Some evm) (st_erc20 req)
                (getErc20Instance (Some evm) (st_erc20 req)) = false ->
  let erc20Instance := getErc20Instance (Some evm) (st_erc20 req) in
  let resolved := resolvedConfig evm erc20Instance in
  let run := checksOf (initialValidity (DRIP_AMOUNT resolved)) (ID resolved)
               (st_couponId req) (st_address req)
               (couponEnabled evm erc20Instance)
               (mainnetCheckEnabled evm erc20Instance) in
  (mainnetCheckEnabled evm erc20Instance || couponEnabled evm erc20Instance)
    && negb (isValid run.2) = false ->
  match sendToken (instance evm) (st_address req) (st_erc20 req)
                  (Some (dripAmount run.2)) with
  | Replied data =>
      last (send req)
      = Some (Respond (status data) (MessageTx (message data) (txHash data)))
  | Silent | Thrown _ =>
      Forall (fun e => isRespond e = false) (send req)
  end.
Proof.
  intros Hevm Hvalid erc20Instance resolved run Hgate.
  rewrite (sendTokenHandler_valid _ _ _ _ _ _ req evm Hevm Hvalid).
  fold erc20Instance. fold resolved. fold run. rewrite Hgate.
  assert (Hchecks : Forall (fun e => isRespond e = false) run.1).
  { apply Forall_forall. intros e He.
    by apply pipelineChecks_effects in He as [->| ->]. }
  unfold dispatch. destruct (sendToken _ _ _ _) as [data| |m].
  - unfold sendTokenCallback.
    match goal with
    | |- last (?l1 ++ ?x :: (?l2 ++ [?y])) = _ =>
        change (l1 ++ x :: (l2 ++ [y])) with (l1 ++ ((x :: l2) ++ [y]))
    end.
    rewrite (assoc_L app). apply last_snoc.
  - apply Forall_app. split; [done|]. by repeat constructor.
  - apply Forall_app. split; [done|]. by repeat constructor.
Qed.

End AdmissionFacts.

Lemma sendToken_invalid_parameters_witness :
  sendTokenHandler true Sample.rpc (Sample.evms Sample.working)
    Sample.couponAccepted Sample.mainnetSufficient Sample.failureMessage
    {| st_address := Some "0xabc"; st_chain := Some "KITE";
       st_erc20 := Some "DAI"; st_couponId := Some "c0ffee" |}
  = [Respond 400 (Message "Invalid parameters passed!")].
Proof.
  apply sendToken_invalid_parameters. right.
  exists "DAI", {| config := Sample.kite; instance := Sample.working |}.
  repeat split; try (vm_compute; reflexivity). discriminate.
Defined.

Lemma sendToken_unsatisfied_blocks_witness :
  exists checks,
    Forall (fun e => isCheck e = true) checks /\
    sendTokenHandler true Sample.rpc (Sample.evms Sample.working)
      Sample.couponRejected Sample.mainnetSufficient Sample.failureMessage
      (Sample.nativeRequest (Some "c0ffee"))
    = checks ++
      [Respond 400
         (Message "Invalid or expired coupon passed! Either mainnet balance or a valid coupon is required.")].
Proof.
  apply (sendToken_unsatisfied_blocks true Sample.rpc (Sample.evms Sample.working)
           Sample.couponRejected Sample.mainnetSufficient Sample.failureMessage
           (Sample.nativeRequest (Some "c0ffee"))
           {| config := Sample.kite; instance := Sample.working |}
           ltac:(vm_compute; reflexivity) ltac:(vm_compute; reflexivity)
           ltac:(vm_compute; reflexivity) ltac:(vm_compute; reflexivity)).
Defined.

Lemma sendToken_coupon_passes_witness :
  sendTokenHandler true Sample.rpc (Sample.evms Sample.working)
    Sample.couponAccepted Sample.mainnetSufficient Sample.failureMessage
    (Sample.nativeRequest (Some "c0ffee"))
  = [ CheckCoupon "KITE" (Some "c0ffee");
      SendToken (Some "0xabc") None (Some 2%Q);
      Respond 200 (MessageTx "Transaction successful" (Some "0xa1")) ].
Proof.
  apply (sendToken_coupon_passes true Sample.rpc (Sample.evms Sample.working)
           Sample.couponAccepted Sample.mainnetSufficient Sample.failureMessage
           (Sample.nativeRequest (Some "c0ffee"))
           {| config := Sample.kite; instance := Sample.working |}
           ltac:(vm_compute; reflexivity) ltac:(vm_compute; reflexivity)
           ltac:(vm_compute; reflexivity) ltac:(vm_compute; reflexivity)).
Defined.

Lemma sendToken_coupon_on_mainnet_gate_witness :
  sendTokenHandler false Sample.rpc (Sample.evms Sample.working)
    Sample.couponAccepted Sample.mainnetSufficient Sample.failureMessage
    (Sample.nativeRequest (Some "c0ffee"))
  = [Respond 400 (Message "undefinedMainnet balance is required.")].
Proof.
  apply (sendToken_coupon_on_mainnet_gate false Sample.rpc (Sample.evms Sample.working)
           Sample.couponAccepted Sample.mainnetSufficient Sample.failureMessage
           (Sample.nativeRequest (Some "c0ffee"))
           {| config := Sample.kite; instance := Sample.working |} "c0ffee"
           ltac:(vm_compute; reflexivity) ltac:(vm_compute; reflexivity)
           ltac:(vm_compute; reflexivity) ltac:(vm_compute; reflexivity)
           eq_refl ltac:(discriminate)).
Defined.

Lemma sendToken_falls_back_to_mainnet_witness :
  sendTokenHandler true Sample.rpc (Sample.evms Sample.working)
    Sample.couponAccepted Sample.mainnetSufficient Sample.failureMessage
    (Sample.nativeRequest None)
  = [ CheckCoupon "KITE" None;
      CheckMainnetBalance Sample.rpc (Some "0xabc");
      SendToken (Some "0xabc") None (Some 2%Q);
      Respond 200 (MessageTx "Transaction successful" (Some "0xa1")) ].
Proof.
  apply (sendToken_falls_back_to_mainnet true Sample.rpc (Sample.evms Sample.working)
           Sample.couponAccepted Sample.mainnetSufficient Sample.failureMessage
           (Sample.nativeRequest None)
           {| config := Sample.kite; instance := Sample.working |}
           ltac:(vm_compute; reflexivity) ltac:(vm_compute; reflexivity)
           ltac:(vm_compute; reflexivity) ltac:(vm_compute; reflexivity)
           ltac:(vm_compute; reflexivity)).
Defined.

Lemma sendToken_relays_report_witness :
  last (sendTokenHandler true Sample.rpc (Sample.evms Sample.failing)
          Sample.couponAccepted Sample.mainnetSufficient Sample.failureMessage
          (Sample.nativeRequest (Some "c0ffee")))
  = Some (Respond 400 (MessageTx "Transaction failed" None)).
Proof.
  apply (sendToken_relays_report true Sample.rpc (Sample.evms Sample.failing)
           Sample.couponAccepted Sample.mainnetSufficient Sample.failureMessage
           (Sample.nativeRequest (Some "c0ffee"))
           {| config := Sample.kite; instance := Sample.failing |}
           ltac:(vm_compute; reflexivity) ltac:(vm_compute; reflexivity)
           ltac:(vm_compute; reflexivity)).
Defined.

(** ** Claims *)

Section ClaimTraces.

Variable NEO_COUPON_ID : option string.
Variable evms : gmap string EVMInstanceAndConfig.

Local Abbreviation claim := (claimTokenHandler NEO_COUPON_ID evms).
Local Abbreviation batch := (batchClaimTokenHandler NEO_COUPON_ID evms).

(** X17. [/claimToken] reports the first validation that fails, in the
    order amount, coupon, parameters: with a positive amount a wrong coupon
    is reported whatever the chain and erc20 are, and wrong parameters are
    reported only when the coupon is right. *)
Theorem claimToken_rejection_order req :
  (exists q, ct_amount req = Some q /\ (0 < q)%Q) ->
  (ct_coupon req ≠ NEO_COUPON_ID ->
   claim req = [Respond 400 (Message "Invalid coupon passed!")]) /\
  (ct_coupon req = NEO_COUPON_ID ->
   getEvm evms (ct_chain req) = None \/
   (exists id evm, ct_erc20 req = Some id /\ id ≠ "" /\
                   getEvm evms (ct_chain req) = Some evm /\
                   contracts (instance evm) !! id = None) ->
   claim req = [Respond 400 (Message "Invalid parameters passed!")]).
Proof.
  intros Ha%amount_accepted. unfold claimTokenHandler. rewrite Ha. split.
  - intros Hc. by rewrite bool_decide_eq_false_2.
  - intros Hc H. rewrite bool_decide_eq_true_2 by done. simpl negb. cbv iota.
    destruct H as [-> | (id & evm & Hid & Hne & Hevm & Hnone)]; [done|].
    rewrite Hevm, Hid. unfold invalidParams, getErc20Instance; simpl.
    rewrite Hnone. destruct (String.eqb_spec id ""); [done|].
    by rewrite bool_decide_eq_false_2 by (by intros [? ?]).
Qed.

(** X18. A claim that passes the validations starts one transfer, for the
    amount of the request and not for a configured drip amount, runs no
    pipeline check and reclaims nothing, and is answered with what the
    transfer reports. The coupon passes when it is equal to the configured
    identifier, which includes a request without coupon when no identifier
    is configured. *)
Theorem claimToken_admitted req evm :
  (exists q, ct_amount req = Some q /\ (0 < q)%Q) ->
  ct_coupon req = NEO_COUPON_ID ->
  getEvm evms (ct_chain req) = Some evm ->
  is_Some (contracts (instance evm) !! default "" (ct_erc20 req))
    \/ truthyStr (ct_erc20 req) = false ->
  claim req =
    SendToken (ct_address req) (ct_erc20 req) (ct_amount req) ::
    match sendToken (instance evm) (ct_address req) (ct_erc20 req)
                    (ct_amount req) with
    | Replied data =>
        [Respond (status data) (MessageTx (message data) (txHash data))]
    | Silent | Thrown _ => []
    end.
Proof.
  intros Ha%amount_accepted Hc Hevm Herc20. unfold claimTokenHandler.
  rewrite Ha, bool_decide_eq_true_2 by done. simpl negb. cbv iota.
  rewrite Hevm. unfold invalidParams, getErc20Instance; simpl.
  assert (Hok : truthyStr (ct_erc20 req)
                && negb (bool_decide (is_Some
                     (contracts (instance evm) !! default "" (ct_erc20 req))))
                = false).
  { destruct Herc20 as [H| ->]; [|done].
    rewrite (bool_decide_eq_true_2 _ H). apply andb_false_r. }
  rewrite Hok. unfold dispatch, claimTokenCallback.
  by destruct (sendToken _ _ _ _).
Qed.

(** X19. [/batchClaimToken] treats a request without chain as one for
    "KITE" and a request without erc20 as one for "USDT". *)
Theorem batchClaimToken_defaults req : batch req = batch (withDefaults req).
Proof.
  unfold batchClaimTokenHandler, withDefaults; simpl.
  repeat case_match; done.
Qed.

(** X20. [/batchClaimToken] starts both transfers or none: a request is
    either answered 400 at once, or the native transfer and then the token
    transfer are started, the latter always with an erc20 identifier, and
    no further transfer follows. *)
Theorem batchClaimToken_pairs req :
  (exists msg, batch req = [Respond 400 (Message msg)]) \/
  (exists rest,
     batch req =
       SendToken (bt_address req) None (bt_kiteAmount req) ::
       SendToken (bt_address req) (Some (default "USDT" (bt_erc20 req)))
                 (bt_erc20Amount req) :: rest /\
     Forall (fun e => isSendToken e = false) rest).
Proof.
  unfold batchClaimTokenHandler.
  destruct (_ || _); [eauto|].
  destruct (negb _); [eauto|].
  destruct (getEvm _ _) as [evm|]; [|eauto].
  destruct (invalidParams _ _ _); [eauto|].
  right. eexists. split; [reflexivity|].
  destruct (batchSettle_answersLast
              (sendToken (instance evm) (bt_address req) None (bt_kiteAmount req))
              (sendToken (instance evm) (bt_address req)
                 (Some (default "USDT" (bt_erc20 req))) (bt_erc20Amount req)))
    as [-> | (code & body & ->)]; by repeat constructor.
Qed.

(** X21. [/batchClaimToken] answers 200 only when both transfers have
    reported with status 200, and then with the two hashes they reported. *)
Theorem batchClaimToken_200 req body :
  Respond 200 body ∈ batch req ->
  exists evm n e,
    getEvm evms (Some (default "KITE" (bt_chain req))) = Some evm /\
    sendToken (instance evm) (bt_address req) None (bt_kiteAmount req)
      = Replied n /\
    sendToken (instance evm) (bt_address req)
              (Some (default "USDT" (bt_erc20 req))) (bt_erc20Amount req)
      = Replied e /\
    status n = 200%Z /\ status e = 200%Z /\
    body = MessageData "Tokens sent successfully"
             (hashValue (txHash n)) (hashValue (txHash e)).
Proof.
  unfold batchClaimTokenHandler.
  destruct (_ || _); [by intros [=]%list_elem_of_singleton|].
  destruct (negb _); [by intros [=]%list_elem_of_singleton|].
  destruct (getEvm _ _) as [evm|]; [|by intros [=]%list_elem_of_singleton].
  destruct (invalidParams _ _ _); [by intros [=]%list_elem_of_singleton|].
  rewrite !elem_of_cons. intros [[=]|[[=]|Hin]].
  exists evm.
  destruct (sendToken (instance evm) (bt_address req) None (bt_kiteAmount req))
    as [n| |m];
    destruct (sendToken (instance evm) (bt_address req) _ (bt_erc20Amount req))
      as [e| |m'];
    simpl in Hin;
    try (by apply elem_of_nil in Hin);
    try (by apply list_elem_of_singleton in Hin).
  exists n, e.
  destruct (Z.eqb_spec (status n) 200), (Z.eqb_spec (status e) 200);
    simpl in Hin; apply list_elem_of_singleton in Hin; try discriminate Hin.
  injection Hin as ->. done.
Qed.

(** X22. When the call of a transfer of a batch throws, the request is
    answered 400 with the error's message alone, even if the other transfer
    went through; when a transfer never reports and none throws, the request
    is never answered. *)
Theorem batchClaimToken_thrown_or_silent req evm :
  negb (truthyNum (bt_kiteAmount req)) || leZero (bt_kiteAmount req) = false ->
  bt_coupon req = NEO_COUPON_ID ->
  getEvm evms (Some (default "KITE" (bt_chain req))) = Some evm ->
  is_Some (contracts (instance evm) !! default "USDT" (bt_erc20 req))
    \/ default "USDT" (bt_erc20 req) = "" ->
  let nativeLeg :=
    sendToken (instance evm) (bt_address req) None (bt_kiteAmount req) in
  let erc20Leg :=
    sendToken (instance evm) (bt_address req)
              (Some (default "USDT" (bt_erc20 req))) (bt_erc20Amount req) in
  let transfers :=
    [ SendToken (bt_address req) None (bt_kiteAmount req);
      SendToken (bt_address req) (Some (default "USDT" (bt_erc20 req)))
                (bt_erc20Amount req) ] in
  (forall msg, nativeLeg = Thrown msg ->
     batch req = transfers ++ [Respond 400 (Message msg)]) /\
  (forall msg, erc20Leg = Thrown msg -> (forall m, nativeLeg ≠ Thrown m) ->
     batch req = transfers ++ [Respond 400 (Message msg)]) /\
  (nativeLeg = Silent \/ erc20Leg = Silent ->
   (forall m, nativeLeg ≠ Thrown m) -> (forall m, erc20Leg ≠ Thrown m) ->
   batch req = transfers).
Proof.
  intros Hamount Hcoupon Hevm Herc20 nativeLeg erc20Leg transfers.
  rewrite (batchClaimToken_dispatches _ _ req evm) by done.
  fold nativeLeg. fold erc20Leg. clearbody nativeLeg erc20Leg.
  split; [|split].
  - by intros msg ->.
  - intros msg -> Hn. destruct nativeLeg as [n| |m]; [done|done|].
    by destruct (Hn m).
  - intros Hs Hn He.
    destruct nativeLeg as [n| |m]; [| |by destruct (Hn m)];
      (destruct erc20Leg as [e| |m']; [| |by destruct (He m')]);
      try done.
    by destruct Hs.
Qed.

End ClaimTraces.

Lemma claimToken_rejection_order_witness :
  claimTokenHandler (Some "neo") (Sample.evms Sample.working)
    {| ct_address := Some "0xabc"; ct_chain := Some "FUJI";
       ct_amount := Some 1%Q; ct_erc20 := None; ct_coupon := Some "wrong" |}
  = [Respond 400 (Message "Invalid coupon passed!")].
Proof.
  apply (proj1 (claimToken_rejection_order (Some "neo")
                  (Sample.evms Sample.working)
                  {| ct_address := Some "0xabc"; ct_chain := Some "FUJI";
                     ct_amount := Some 1%Q; ct_erc20 := None;
                     ct_coupon := Some "wrong" |}
                  ltac:(exists 1%Q; split; [reflexivity|by vm_compute]))).
  discriminate.
Defined.

Lemma claimToken_admitted_witness :
  claimTokenHandler None (Sample.evms Sample.working)
    {| ct_address := Some "0xabc"; ct_chain := Some "KITE";
       ct_amount := Some 7%Q; ct_erc20 := None; ct_coupon := None |}
  = [ SendToken (Some "0xabc") None (Some 7%Q);
      Respond 200 (MessageTx "Transaction successful" (Some "0xa1")) ].
Proof.
  apply (claimToken_admitted None (Sample.evms Sample.working)
           {| ct_address := Some "0xabc"; ct_chain := Some "KITE";
              ct_amount := Some 7%Q; ct_erc20 := None; ct_coupon := None |}
           {| config := Sample.kite; instance := Sample.working |}
           ltac:(exists 7%Q; split; [reflexivity|by vm_compute])
           eq_refl ltac:(vm_compute; reflexivity) ltac:(by right)).
Defined.

Lemma batchClaimToken_200_witness :
  exists evm n e,
    getEvm (Sample.evms Sample.working) (Some "KITE") = Some evm /\
    sendToken (instance evm) (Some "0xabc") None (Some 1%Q) = Replied n /\
    sendToken (instance evm) (Some "0xabc") (Some "USDT") (Some 5%Q) = Replied e /\
    status n = 200%Z /\ status e = 200%Z /\
    MessageData "Tokens sent successfully" (JStr "0xa1") (JStr "0xa1")
    = MessageData "Tokens sent successfully"
        (hashValue (txHash n)) (hashValue (txHash e)).
Proof.
  apply (batchClaimToken_200 (Some "neo") (Sample.evms Sample.working)
           (Sample.batchRequest (Some 5%Q))).
  vm_compute. do 2 right. by left.
Defined.

Lemma batchClaimToken_thrown_or_silent_witness :
  batchClaimTokenHandler (Some "neo") (Sample.evms Faults.throwingNative)
    (Sample.batchRequest (Some 5%Q))
  = [ SendToken (Some "0xabc") None (Some 1%Q);
      SendToken (Some "0xabc") (Some "USDT") (Some 5%Q);
      Respond 400 (Message "nonce too low") ].
Proof.
  apply (proj1 (batchClaimToken_thrown_or_silent (Some "neo")
                  (Sample.evms Faults.throwingNative)
                  (Sample.batchRequest (Some 5%Q))
                  {| config := Sample.kite; instance := Faults.throwingNative |}
                  ltac:(vm_compute; reflexivity) eq_refl
                  ltac:(vm_compute; reflexivity)
                  ltac:(left; vm_compute; eauto))).
  reflexivity.
Defined.

(** ** Balance and rate limiter key *)

(** X23. [/getBalance] answers "0" exactly when there is no non-zero
    balance to report: the chain is unknown, or the instance gives no balance
    or the balance 0. *)
Theorem getBalance_zero_iff (evms : gmap string EVMInstanceAndConfig)
    (q : BalanceQuery) :
  getBalanceHandler evms q = [Respond 200 (Balance "0")] <->
  forall evm b, getEvm evms (gb_chain q) = Some evm ->
                getBalance (instance evm) (gb_erc20 q) = Some b -> b = 0%Z.
Proof.
  unfold getBalanceHandler.
  destruct (getEvm evms (gb_chain q)) as [evm|]; simpl;
    [|split; [by intros _ ?? [=]|reflexivity]].
  destruct (getBalance (instance evm) (gb_erc20 q)) as [b|] eqn:Hbal.
  - destruct (Z.eqb_spec b 0) as [->|Hb].
    + split; [|reflexivity]. intros _ evm' b' [= <-]. congruence.
    + split.
      * intros [= H]. change "0" with (pretty 0%Z) in H.
        by apply (inj pretty) in H.
      * intros H. by destruct Hb; apply (H evm b).
  - split; [|reflexivity]. intros _ evm' b' [= <-]. congruence.
Qed.







(** ** Start-up and handlers together *)

(** X26. With the table filled at start-up from the configured chains, a
    request that names a chain no configured chain has is answered 400 by
    [/sendToken] before any check, and "0" by [/getBalance]. *)
Theorem unknown_chain_rejected (newEVM : ChainType -> EVM)
    (chains : list ChainType) (id : string)
    (IS_ENABLED : bool) (rpc : string)
    (checkCoupon checkMainnet :
       PipelineCheckValidity -> string -> option string -> PipelineCheckValidity)
    (failureMessage : string -> bool -> string) :
  Forall (fun c => ID c ≠ id) chains ->
  (forall req, st_chain req = Some id ->
     sendTokenHandler IS_ENABLED rpc (setupEvms newEVM chains) checkCoupon
                      checkMainnet failureMessage req
     = [Respond 400 (Message "Invalid parameters passed!")]) /\
  (forall erc20,
     getBalanceHandler (setupEvms newEVM chains)
                       {| gb_chain := Some id; gb_erc20 := erc20 |}
     = [Respond 200 (Balance "0")]).
Proof.
  intros Hall.
  assert (Hnone : setupEvms newEVM chains !! id = None).
  { unfold setupEvms. rewrite setupEvms_fold, lookup_empty.
    assert (Hnil : filter (fun c => ID c = id) chains = []).
    { induction Hall as [|c cs Hc _ IH]; [done|].
      rewrite filter_cons. by destruct (decide (ID c = id)). }
    by rewrite Hnil. }
  split.
  - intros req Hchain. apply sendTokenHandler_invalid.
    intros evm. unfold getEvm. rewrite Hchain. simpl. by rewrite Hnone.
  - intros erc20. unfold getBalanceHandler, getEvm. simpl. by rewrite Hnone.
Qed.

Lemma unknown_chain_rejected_witness :
  getBalanceHandler (setupEvms (fun _ => Sample.working) [Sample.kite])
                    {| gb_chain := Some "FUJI"; gb_erc20 := None |}
  = [Respond 200 (Balance "0")].
Proof.
  apply (proj2 (unknown_chain_rejected (fun _ => Sample.working) [Sample.kite]
                  "FUJI" true Sample.rpc Sample.couponAccepted
                  Sample.mainnetSufficient Sample.failureMessage
                  ltac:(repeat constructor; discriminate))).
Defined.
